(** * PowerLog battery manager: the inventory state machine

    A shallow embedding of the battery lifecycle of the PowerLog
    application: the data model of [types.ts], the operations of the
    [App] component ([saveToStorage], [saveBattery], [useBattery],
    [executeCharge], [deleteHistoryEntry]) and the upsert endpoint of
    the server ([app.post('/api/batteries')]).

    Modelling conventions.
    - A JavaScript [number] that holds a count is an integer of [Z]
      (signed: nothing in the code keeps a count from going below zero).
      Fractions and infinities are outside the model.  [NaN] is kept
      only where the code can produce it from well-typed data, that is
      for [capacityMah] ([Number(undefined)] in [saveBattery]).
    - An optional field ([x?: T], or any field of [Partial<Battery>]) is
      an [option]; [None] is [undefined].
    - The React state [batteries] is a [list]: [find] returns the first
      entry with the id, [map] rewrites every entry with the id, and a
      new entry is appended at the end.
    - An operation is a function from the inventory before to the
      inventory after; it runs to completion on the inventory it read.
      The clock ([new Date().toISOString()]) and the id generator
      ([generateSafeId()]) are inputs of the operations that read them.
    - The table [batteries] of the server is a finite map from the
      primary key [id] to the row. *)

From Stdlib Require Import ZArith String List Bool Lia.
From stdpp Require Import gmap strings list fin_maps.

Local Open Scope string_scope.
Local Open Scope Z_scope.

(** ** JavaScript values *)

Module JS.

(** A [number] that may be [NaN]. *)
Inductive number := Num (z : Z) | NaN.

(** [Number(x)] for [x : number | undefined]. *)
Definition Number (x : option number) : number :=
  match x with Some n => n | None => NaN end.

(** [Number(x)] for an integer-valued [x : number | undefined]. *)
Definition NumberZ (x : option Z) : number :=
  match x with Some z => Num z | None => NaN end.

(** [n || d] for a number [n]: [0] and [NaN] are falsy. *)
Definition num_or (n : number) (d : Z) : Z :=
  match n with
  | Num z => if z =? 0 then d else z
  | NaN => d
  end.

(** [z || d] for an integer-valued number [z]. *)
Definition Z_or (z d : Z) : Z := if z =? 0 then d else z.

(** [x || d] for [x : number | undefined]. *)
Definition opt_or (x : option Z) (d : Z) : Z :=
  match x with Some z => Z_or z d | None => d end.

(** [s || d] for [s : string | undefined]: the empty string is falsy. *)
Definition str_or (s : option string) (d : string) : string :=
  match s with
  | Some v => if String.eqb v "" then d else v
  | None => d
  end.

(** [!s] for [s : string | undefined]. *)
Definition str_falsy (s : option string) : bool :=
  match s with
  | Some v => String.eqb v ""
  | None => true
  end.

End JS.

(** ** Data model ([types.ts]) *)

Inductive BatteryCategory := PRIMARY | BUTTON_CELL | RECHARGEABLE.

Definition is_rechargeable (c : BatteryCategory) : bool :=
  match c with RECHARGEABLE => true | _ => false end.

Module ChargingEvent.
Record t := mk { id : string; date : string; count : Z }.
End ChargingEvent.

Module Battery.
Record t := mk {
  id : string;
  name : string;
  brand : string;
  size : string;
  category : BatteryCategory;
  quantity : Z;
  totalQuantity : Z;
  minQuantity : Z;
  inUse : Z;
  usageAccumulator : Z;
  capacityMah : option JS.number;
  chargeCycles : option Z;
  lastCharged : option string;
  chargingHistory : option (list ChargingEvent.t)
}.
End Battery.

(** [Partial<Battery>], the state of the entry form. *)
Module Form.
Record t := mk {
  id : option string;
  name : option string;
  brand : option string;
  size : option string;
  category : option BatteryCategory;
  quantity : option Z;
  totalQuantity : option Z;
  minQuantity : option Z;
  inUse : option Z;
  usageAccumulator : option Z;
  capacityMah : option JS.number;
  chargeCycles : option Z;
  lastCharged : option string;
  chargingHistory : option (list ChargingEvent.t)
}.
End Form.

(** ** The inventory held by the client *)

(** [batteries.find(x => x.id === id)] *)
Definition findBattery (id : string) (batteries : list Battery.t)
  : option Battery.t :=
  List.find (fun x => String.eqb (Battery.id x) id) batteries.

(** [saveToStorage]: the update of the local list.  The request to the
    server that follows it is [Server.post_batteries] below. *)
Definition saveToStorage (battery : Battery.t) (prev : list Battery.t)
  : list Battery.t :=
  match findBattery (Battery.id battery) prev with
  | Some _ =>
      List.map (fun b => if String.eqb (Battery.id b) (Battery.id battery)
                         then battery else b) prev
  | None => prev ++ [battery]
  end.

(** ** Consumption *)

(** The value of [updated] in the rechargeable branch of [useBattery]. *)
Definition useBattery_rechargeable (b : Battery.t) : Battery.t :=
  let nextAccumulator := Battery.usageAccumulator b + 1 in
  let nextCycles := JS.opt_or (Battery.chargeCycles b) 0 in
  let rollover := nextAccumulator >=? JS.Z_or (Battery.totalQuantity b) 1 in
  let nextAccumulator' := if rollover then 0 else nextAccumulator in
  let nextCycles' := if rollover then nextCycles + 1 else nextCycles in
  Battery.mk (Battery.id b) (Battery.name b) (Battery.brand b) (Battery.size b)
    (Battery.category b)
    (Battery.quantity b - 1)
    (Battery.totalQuantity b)
    (Battery.minQuantity b)
    (Battery.inUse b + 1)
    nextAccumulator'
    (Battery.capacityMah b)
    (Some nextCycles')
    (Battery.lastCharged b)
    (Battery.chargingHistory b).

(** The value of [updated] in the other branch of [useBattery]. *)
Definition useBattery_consumable (b : Battery.t) : Battery.t :=
  Battery.mk (Battery.id b) (Battery.name b) (Battery.brand b) (Battery.size b)
    (Battery.category b)
    (Battery.quantity b - 1)
    (Z.max 0 (JS.Z_or (Battery.totalQuantity b) (Battery.quantity b) - 1))
    (Battery.minQuantity b)
    (Battery.inUse b)
    (Battery.usageAccumulator b)
    (Battery.capacityMah b)
    (Battery.chargeCycles b)
    (Battery.lastCharged b)
    (Battery.chargingHistory b).

Definition useBattery (id : string) (batteries : list Battery.t)
  : list Battery.t :=
  match findBattery id batteries with
  | None => batteries
  | Some b =>
      if Battery.quantity b <=? 0 then batteries
      else
        let updated :=
          if is_rechargeable (Battery.category b)
          then useBattery_rechargeable b
          else useBattery_consumable b in
        saveToStorage updated batteries
  end.

(** ** Recharge *)

(** The value of [updated] in [executeCharge]; [amount] is the field of
    [chargeModal], [freshId] the result of [generateSafeId()] and [now]
    the reading of the clock. *)
Definition executeCharge_updated (b : Battery.t) (amount : Z)
    (freshId now : string) : Battery.t :=
  let moveAmount := Z.min (Battery.inUse b) amount in
  let newHistoryEvent := ChargingEvent.mk freshId now moveAmount in
  Battery.mk (Battery.id b) (Battery.name b) (Battery.brand b)
    (Battery.size b) (Battery.category b)
    (Battery.quantity b + moveAmount)
    (Battery.totalQuantity b)
    (Battery.minQuantity b)
    (Battery.inUse b - moveAmount)
    (Battery.usageAccumulator b)
    (Battery.capacityMah b)
    (Battery.chargeCycles b)
    (Some now)
    (Some (newHistoryEvent
             :: match Battery.chargingHistory b with
                | Some h => h
                | None => []
                end)).

(** [executeCharge]; [batteryId] and [amount] are the fields of
    [chargeModal] that it reads. *)
Definition executeCharge (batteryId : string) (amount : Z)
    (freshId now : string) (batteries : list Battery.t) : list Battery.t :=
  match findBattery batteryId batteries with
  | None => batteries
  | Some b => saveToStorage (executeCharge_updated b amount freshId now) batteries
  end.

(** The values that [chargeModal.amount] can hold for the battery [b]
    that the dialog is open on: the initial value, the value set when
    the dialog opens ([battery.inUse || 0]), and those reached with its
    minus button ([Math.max(1, p.amount - 1)]) and its plus button
    ([Math.min(max, p.amount + 1)] with [max = inUse || 1]). *)
Inductive dialog_amount (b : Battery.t) : Z -> Prop :=
| amount_initial : dialog_amount b 1
| amount_open : dialog_amount b (JS.Z_or (Battery.inUse b) 0)
| amount_minus (a : Z) :
    dialog_amount b a -> dialog_amount b (Z.max 1 (a - 1))
| amount_plus (a : Z) :
    dialog_amount b a ->
    dialog_amount b (Z.min (JS.Z_or (Battery.inUse b) 1) (a + 1)).

(** ** History ledger *)

(** The value of [updated] in [deleteHistoryEntry]; [h] is
    [b.chargingHistory]. *)
Definition deleteHistoryEntry_updated (b : Battery.t)
    (h : list ChargingEvent.t) (eventId : string) : Battery.t :=
  let updatedHistory :=
    List.filter (fun e => negb (String.eqb (ChargingEvent.id e) eventId)) h in
  Battery.mk (Battery.id b) (Battery.name b) (Battery.brand b)
    (Battery.size b) (Battery.category b) (Battery.quantity b)
    (Battery.totalQuantity b) (Battery.minQuantity b)
    (Battery.inUse b) (Battery.usageAccumulator b)
    (Battery.capacityMah b) (Battery.chargeCycles b)
    (Battery.lastCharged b) (Some updatedHistory).

Definition deleteHistoryEntry (batteryId eventId : string)
    (batteries : list Battery.t) : list Battery.t :=
  match findBattery batteryId batteries with
  | None => batteries
  | Some b =>
      match Battery.chargingHistory b with
      | None => batteries
      | Some h => saveToStorage (deleteHistoryEntry_updated b h eventId) batteries
      end
  end.

(** ** Upsert *)

(** [formBattery.category === BatteryCategory.RECHARGEABLE] *)
Definition form_isRechargeable (form : Form.t) : bool :=
  match Form.category form with
  | Some RECHARGEABLE => true
  | _ => false
  end.

(** The value of [battery] in [saveBattery]. *)
Definition saveBattery_battery (form : Form.t) (freshId now : string)
  : Battery.t :=
  let isRechargeable := form_isRechargeable form in
  Battery.mk
    (JS.str_or (Form.id form) freshId)
    (JS.str_or (Form.name form) "?")
    (JS.str_or (Form.brand form) "")
    (JS.str_or (Form.size form) (JS.str_or (Form.name form) "AA"))
    (match Form.category form with Some c => c | None => PRIMARY end)
    (JS.num_or (JS.NumberZ (Form.quantity form)) 0)
    (if isRechargeable
     then JS.opt_or (Form.totalQuantity form) 1
     else JS.opt_or (Form.quantity form) 1)
    (JS.num_or (JS.NumberZ (Form.minQuantity form)) 0)
    (if isRechargeable then JS.num_or (JS.NumberZ (Form.inUse form)) 0 else 0)
    (JS.opt_or (Form.usageAccumulator form) 0)
    (if isRechargeable then Some (JS.Number (Form.capacityMah form)) else None)
    (if isRechargeable then Some (JS.opt_or (Form.chargeCycles form) 0)
     else None)
    (if isRechargeable then Some (JS.str_or (Form.lastCharged form) now)
     else None)
    (Some (match Form.chargingHistory form with Some h => h | None => [] end)).

(** [saveBattery], with the form, the id generator and the clock as
    inputs. *)
Definition saveBattery (form : Form.t) (freshId now : string)
    (batteries : list Battery.t) : list Battery.t :=
  if JS.str_falsy (Form.name form) then batteries
  else saveToStorage (saveBattery_battery form freshId now) batteries.

(** ** The upsert endpoint of the server *)

Module Server.

(** The JSON body of [POST /api/batteries].  A field that is absent or
    [null] is [None]. *)
Record Body := mkBody {
  id : option string;
  name : option string;
  brand : option string;
  size : option string;
  category : option string;
  quantity : option Z;
  totalQuantity : option Z;
  minQuantity : option Z;
  inUse : option Z;
  usageAccumulator : option Z;
  capacityMah : option Z;
  chargeCycles : option Z;
  lastCharged : option string;
  chargingHistory : option (list ChargingEvent.t)
}.

(** A row of the table [batteries] without its key.  The column
    [chargingHistory] holds the JSON text of a list of events and is
    represented by that list. *)
Record Row := mkRow {
  r_name : string;
  r_brand : string;
  r_size : string;
  r_category : option string;
  r_quantity : Z;
  r_totalQuantity : Z;
  r_minQuantity : Z;
  r_inUse : Z;
  r_usageAccumulator : Z;
  r_capacityMah : Z;
  r_chargeCycles : Z;
  r_lastCharged : string;
  r_chargingHistory : list ChargingEvent.t
}.

Inductive Response :=
| BadRequest
| Success (id : string).

(** The values bound to the columns after [id]; [n] is [b.name]. *)
Definition row_of (b : Body) (n : string) : Row :=
  mkRow n
    (JS.str_or (brand b) "")
    (JS.str_or (size b) n)
    (category b)
    (JS.num_or (JS.NumberZ (quantity b)) 0)
    (JS.num_or (JS.NumberZ (totalQuantity b)) 0)
    (JS.num_or (JS.NumberZ (minQuantity b)) 0)
    (JS.num_or (JS.NumberZ (inUse b)) 0)
    (JS.num_or (JS.NumberZ (usageAccumulator b)) 0)
    (JS.num_or (JS.NumberZ (capacityMah b)) 0)
    (JS.num_or (JS.NumberZ (chargeCycles b)) 0)
    (JS.str_or (lastCharged b) "")
    (match chargingHistory b with Some h => h | None => [] end).

(** [app.post('/api/batteries', ...)]: [REPLACE INTO batteries]. *)
Definition post_batteries (b : Body) (db : gmap string Row)
  : Response * gmap string Row :=
  match id b, name b with
  | Some i, Some n =>
      if String.eqb i "" || String.eqb n "" then (BadRequest, db)
      else (Success i, <[i := row_of b n]> db)
  | _, _ => (BadRequest, db)
  end.

(** [app.delete('/api/batteries/:id', ...)]: [DELETE FROM batteries
    WHERE id = ?]. *)
Definition delete_batteries (id : string) (db : gmap string Row)
  : gmap string Row :=
  delete id db.

End Server.

(** ** The rest of the client *)

(** [deleteFromStorage]: the update of the local list. *)
Definition deleteFromStorage (id : string) (prev : list Battery.t)
  : list Battery.t :=
  List.filter (fun b => negb (String.eqb (Battery.id b) id)) prev.

(** [setFormBattery(battery)], the edit button: the form holds every
    field of the entity. *)
Definition form_of_battery (battery : Battery.t) : Form.t :=
  Form.mk (Some (Battery.id battery)) (Some (Battery.name battery))
    (Some (Battery.brand battery)) (Some (Battery.size battery))
    (Some (Battery.category battery)) (Some (Battery.quantity battery))
    (Some (Battery.totalQuantity battery))
    (Some (Battery.minQuantity battery)) (Some (Battery.inUse battery))
    (Some (Battery.usageAccumulator battery))
    (Battery.capacityMah battery) (Battery.chargeCycles battery)
    (Battery.lastCharged battery) (Battery.chargingHistory battery).

(** The statistics cards.
    [batteries.reduce((a,b)=>a+(b.totalQuantity || 0), 0)] *)
Definition totalInventory (batteries : list Battery.t) : Z :=
  fold_left (fun a b => a + JS.Z_or (Battery.totalQuantity b) 0) batteries 0.

(** [batteries.filter(b => b.quantity <= b.minQuantity).length] *)
Definition lowStock (batteries : list Battery.t) : nat :=
  length (List.filter
            (fun b => Battery.quantity b <=? Battery.minQuantity b) batteries).

(** [batteries.reduce((a,b)=>a+(b.quantity || 0), 0)] *)
Definition statusReady (batteries : list Battery.t) : Z :=
  fold_left (fun a b => a + JS.Z_or (Battery.quantity b) 0) batteries 0.

(** The values of the enum [BatteryCategory]. *)
Definition category_value (c : BatteryCategory) : string :=
  match c with
  | PRIMARY => "Batterie"
  | BUTTON_CELL => "Knopfzelle"
  | RECHARGEABLE => "Akku"
  end.

(** A number in JSON text: [NaN] is written as [null]. *)
Definition json_number (n : JS.number) : option Z :=
  match n with JS.Num z => Some z | JS.NaN => None end.

(** The body that [saveToStorage] posts, [JSON.stringify(battery)] as
    the server parses it: a field that is [undefined] is left out. *)
Definition request_body (battery : Battery.t) : Server.Body :=
  Server.mkBody (Some (Battery.id battery)) (Some (Battery.name battery))
    (Some (Battery.brand battery)) (Some (Battery.size battery))
    (Some (category_value (Battery.category battery)))
    (Some (Battery.quantity battery))
    (Some (Battery.totalQuantity battery))
    (Some (Battery.minQuantity battery)) (Some (Battery.inUse battery))
    (Some (Battery.usageAccumulator battery))
    (match Battery.capacityMah battery with
     | Some n => json_number n
     | None => None
     end)
    (Battery.chargeCycles battery) (Battery.lastCharged battery)
    (Battery.chargingHistory battery).

(** The sum of a column of the inventory. *)
Definition sumZ (f : Battery.t -> Z) (bs : list Battery.t) : Z :=
  fold_left (fun a b => a + f b) bs 0.

(** The ids of the events of a ledger. *)
Definition event_ids (h : list ChargingEvent.t) : list string :=
  List.map ChargingEvent.id h.

(** A form that is a second disposable type, for an inventory that
    does not hold it yet. *)
Definition form_button_cell : Form.t :=
  Form.mk (Some "c") (Some "CR2032") (Some "Varta") None (Some BUTTON_CELL)
    (Some 3) None (Some 1) None None None None None None.

(** ** Auxiliary definitions *)

(** The function that [saveToStorage] maps over the list. *)
Definition replace_by_id (battery b : Battery.t) : Battery.t :=
  if String.eqb (Battery.id b) (Battery.id battery) then battery else b.

(** [b.chargeCycles || 0]: the cycle count, a missing one read as 0. *)
Definition cycles (b : Battery.t) : Z := JS.opt_or (Battery.chargeCycles b) 0.

(** [b.chargingHistory || []] *)
Definition history_or_empty (b : Battery.t) : list ChargingEvent.t :=
  match Battery.chargingHistory b with Some h => h | None => [] end.

(** ** The specification's wording *)

(** The outcome of consuming a disposable unit as the specification
    words it. *)
Definition claimed_consume_consumable (b b' : Battery.t) : Prop :=
  Battery.quantity b' = Battery.quantity b - 1 /\
  Battery.totalQuantity b' = Z.max 0 (Battery.totalQuantity b - 1).

(** The range of the accumulator after a consumption as the
    specification words it. *)
Definition claimed_accumulator_range (b' : Battery.t) : Prop :=
  0 <= Battery.usageAccumulator b' < Z.max (Battery.totalQuantity b') 1.

(** The stock of a non-rechargeable type after an upsert as the
    specification words it. *)
Definition claimed_total_equals_quantity (b' : Battery.t) : Prop :=
  Battery.totalQuantity b' = Battery.quantity b'.

(** ** Sample inventories, forms and request bodies *)

(** A rechargeable type of five units whose accumulator is -5. *)
Definition akku_negative_accumulator : Battery.t :=
  Battery.mk "a" "AA" "" "AA" RECHARGEABLE 1 5 0 0 (-5)
    (Some (JS.Num 0)) (Some 0) None (Some []).

(** A disposable type with five units ready and no total recorded. *)
Definition primary_without_total : Battery.t :=
  Battery.mk "p" "AAA" "" "AAA" PRIMARY 5 0 2 0 0 None None None (Some []).

(** A rechargeable type of five units, four uses into the batch. *)
Definition akku_five : Battery.t :=
  Battery.mk "a" "AA" "" "AA" RECHARGEABLE 5 5 0 0 4
    (Some (JS.Num 0)) (Some 2) None (Some []).

(** A disposable type with two units. *)
Definition primary_two : Battery.t :=
  Battery.mk "p" "AAA" "" "AAA" PRIMARY 2 2 2 0 0 None None None (Some []).

(** A rechargeable type with nothing ready and three units in use. *)
Definition akku_all_in_use : Battery.t :=
  Battery.mk "a" "AA" "" "AA" RECHARGEABLE 0 3 0 3 0
    (Some (JS.Num 0)) (Some 0) None (Some []).

(** Three recharge events, newest first; the first and the last share
    an id. *)
Definition ledger : list ChargingEvent.t :=
  [ ChargingEvent.mk "e3" "2024-03-01T10:00:00.000Z" 2;
    ChargingEvent.mk "e2" "2024-02-01T10:00:00.000Z" 1;
    ChargingEvent.mk "e3" "2024-01-01T10:00:00.000Z" 4 ].

(** A rechargeable type with two units ready, three in use and a
    ledger. *)
Definition akku_with_ledger : Battery.t :=
  Battery.mk "a" "AA" "Eneloop" "AA" RECHARGEABLE 2 5 0 3 1
    (Some (JS.Num 1900)) (Some 7) (Some "2024-03-01T10:00:00.000Z")
    (Some ledger).

(** A rechargeable type with every unit ready. *)
Definition akku_idle : Battery.t :=
  Battery.mk "a" "AA" "Eneloop" "AA" RECHARGEABLE 5 5 0 0 1
    (Some (JS.Num 1900)) (Some 7) None None.

(** The form of a new rechargeable type: an id, no date of last charge. *)
Definition form_akku_new : Form.t :=
  Form.mk (Some "a") (Some "AA") (Some "Eneloop") None (Some RECHARGEABLE)
    (Some 4) (Some 4) (Some 0) (Some 0) (Some 0) (Some (JS.Num 1900))
    (Some 0) None (Some []).

(** The form of a disposable type with two units. *)
Definition form_primary_two : Form.t :=
  Form.mk (Some "p") (Some "AAA") None None (Some PRIMARY)
    (Some 2) (Some 2) (Some 2) (Some 0) (Some 0) (Some (JS.Num 0))
    (Some 0) None (Some []).

(** The form of a disposable type that is out of stock. *)
Definition form_primary_zero : Form.t :=
  Form.mk (Some "p") (Some "AAA") None None (Some PRIMARY)
    (Some 0) (Some 0) (Some 2) (Some 0) (Some 0) (Some (JS.Num 0))
    (Some 0) None (Some []).

(** A request body for the server. *)
Definition body_primary_two : Server.Body :=
  Server.mkBody (Some "p") (Some "AAA") None None (Some "Batterie")
    (Some 2) (Some 2) (Some 2) None None None None None None.

(** * Properties *)

(** Closes the goals left after a stored entity is unfolded: one
    equation or inequality per field. *)
Ltac fields :=
  repeat split; intros;
  first [reflexivity | lia | congruence | f_equal; lia].

(** ** Lookup and replace-by-id on the local list *)

Section Inventory.

Implicit Types (b battery : Battery.t) (bs prev : list Battery.t).
Implicit Types (i j : string).

Lemma findBattery_nil i : findBattery i [] = None.
Proof. reflexivity. Qed.

Lemma findBattery_cons i b bs :
  findBattery i (b :: bs) =
    if String.eqb (Battery.id b) i then Some b else findBattery i bs.
Proof. reflexivity. Qed.

Lemma findBattery_Some_id i bs b :
  findBattery i bs = Some b -> Battery.id b = i.
Proof.
  unfold findBattery. intros H.
  apply List.find_some in H as [_ H].
  now apply String.eqb_eq in H.
Qed.

Lemma findBattery_app_None i bs battery :
  findBattery i bs = None ->
  findBattery i (bs ++ [battery])%list = findBattery i [battery].
Proof.
  induction bs as [|b bs IH]; [reflexivity|].
  cbn [app]. rewrite !findBattery_cons.
  destruct (String.eqb (Battery.id b) i); [discriminate | exact IH].
Qed.

Lemma findBattery_app_Some i bs battery b :
  findBattery i bs = Some b ->
  findBattery i (bs ++ [battery])%list = Some b.
Proof.
  induction bs as [|b0 bs IH]; [discriminate|].
  cbn [app]. rewrite !findBattery_cons.
  destruct (String.eqb (Battery.id b0) i); [trivial | exact IH].
Qed.

Lemma findBattery_map_replace_eq battery bs b :
  findBattery (Battery.id battery) bs = Some b ->
  findBattery (Battery.id battery) (List.map (replace_by_id battery) bs)
    = Some battery.
Proof.
  induction bs as [|b0 bs IH]; [discriminate|].
  cbn [List.map]. rewrite !findBattery_cons. unfold replace_by_id.
  destruct (String.eqb (Battery.id b0) (Battery.id battery)) eqn:E.
  - intros _. now rewrite String.eqb_refl.
  - rewrite E. exact IH.
Qed.

Lemma findBattery_map_replace_ne battery bs i :
  i <> Battery.id battery ->
  findBattery i (List.map (replace_by_id battery) bs) = findBattery i bs.
Proof.
  intros Hne. induction bs as [|b0 bs IH]; [reflexivity|].
  cbn [List.map]. rewrite !findBattery_cons. unfold replace_by_id.
  destruct (String.eqb (Battery.id b0) (Battery.id battery)) eqn:E.
  - apply String.eqb_eq in E.
    assert (String.eqb (Battery.id battery) i = false) as ->
      by (apply String.eqb_neq; congruence).
    assert (String.eqb (Battery.id b0) i = false) as ->
      by (apply String.eqb_neq; congruence).
    exact IH.
  - destruct (String.eqb (Battery.id b0) i); [reflexivity | exact IH].
Qed.

Lemma saveToStorage_found battery prev b :
  findBattery (Battery.id battery) prev = Some b ->
  saveToStorage battery prev = List.map (replace_by_id battery) prev.
Proof. unfold saveToStorage. intros ->. reflexivity. Qed.

Lemma saveToStorage_fresh battery prev :
  findBattery (Battery.id battery) prev = None ->
  saveToStorage battery prev = (prev ++ [battery])%list.
Proof. unfold saveToStorage. intros ->. reflexivity. Qed.

(** After a write the entity stored under the id is the one written. *)
Lemma findBattery_saveToStorage battery prev :
  findBattery (Battery.id battery) (saveToStorage battery prev)
    = Some battery.
Proof.
  destruct (findBattery (Battery.id battery) prev) as [b|] eqn:E.
  - rewrite (saveToStorage_found _ _ _ E).
    eapply findBattery_map_replace_eq; eauto.
  - rewrite (saveToStorage_fresh _ _ E), (findBattery_app_None _ _ _ E).
    rewrite findBattery_cons, String.eqb_refl. reflexivity.
Qed.

(** A write leaves the entities stored under the other ids alone. *)
Lemma findBattery_saveToStorage_ne battery prev i :
  i <> Battery.id battery ->
  findBattery i (saveToStorage battery prev) = findBattery i prev.
Proof.
  intros Hne.
  destruct (findBattery (Battery.id battery) prev) as [b|] eqn:E.
  - rewrite (saveToStorage_found _ _ _ E).
    now apply findBattery_map_replace_ne.
  - rewrite (saveToStorage_fresh _ _ E).
    destruct (findBattery i prev) as [b|] eqn:Ei.
    + now apply findBattery_app_Some.
    + rewrite (findBattery_app_None _ _ _ Ei), findBattery_cons.
      assert (String.eqb (Battery.id battery) i = false) as ->
        by (apply String.eqb_neq; congruence).
      reflexivity.
Qed.

Lemma map_replace_twice battery battery' bs :
  Battery.id battery = Battery.id battery' ->
  List.map (replace_by_id battery') (List.map (replace_by_id battery) bs)
    = List.map (replace_by_id battery') bs.
Proof.
  intros Hid. rewrite List.map_map. apply List.map_ext. intros b.
  unfold replace_by_id. rewrite <- Hid.
  destruct (String.eqb (Battery.id b) (Battery.id battery)) eqn:E.
  - now rewrite String.eqb_refl.
  - now rewrite E.
Qed.

(** A second write under the same id overwrites the first. *)
Lemma saveToStorage_overwrite battery battery' prev :
  Battery.id battery = Battery.id battery' ->
  saveToStorage battery' (saveToStorage battery prev)
    = saveToStorage battery' prev.
Proof.
  intros Hid.
  pose proof (findBattery_saveToStorage battery prev) as Hnew.
  rewrite Hid in Hnew.
  rewrite (saveToStorage_found _ _ _ Hnew).
  destruct (findBattery (Battery.id battery) prev) as [b|] eqn:E.
  - rewrite (saveToStorage_found _ _ _ E).
    rewrite Hid in E. rewrite (saveToStorage_found _ _ _ E).
    now apply map_replace_twice.
  - rewrite (saveToStorage_fresh _ _ E).
    rewrite Hid in E. rewrite (saveToStorage_fresh _ _ E).
    rewrite List.map_app. cbn [List.map]. f_equal.
    + clear Hnew. induction prev as [|b0 prev IH]; [reflexivity|].
      rewrite findBattery_cons in E. cbn [List.map]. unfold replace_by_id.
      destruct (String.eqb (Battery.id b0) (Battery.id battery')) eqn:E0;
        [discriminate|].
      f_equal. now apply IH.
    + unfold replace_by_id. now rewrite Hid, String.eqb_refl.
Qed.

(** In an inventory with unique ids every entry is the one that
    [find] returns for its id. *)
Lemma findBattery_unique bs b :
  NoDup (List.map Battery.id bs) -> In b bs ->
  findBattery (Battery.id b) bs = Some b.
Proof.
  induction bs as [|b0 bs IH]; [intros _ []|].
  cbn [List.map]. rewrite NoDup_cons, findBattery_cons.
  intros [Hnotin Hnodup] [-> | Hin].
  - now rewrite String.eqb_refl.
  - destruct (String.eqb_spec (Battery.id b0) (Battery.id b)) as [E | _].
    + exfalso. apply Hnotin. rewrite E.
      apply list_elem_of_In. now apply List.in_map.
    + now apply IH.
Qed.

(** Replacing by id an entity that keeps the value of a field [f] keeps
    the column of [f] in an inventory with unique ids. *)
Lemma map_replace_keeps {A : Type} (f : Battery.t -> A) battery bs b :
  NoDup (List.map Battery.id bs) ->
  findBattery (Battery.id battery) bs = Some b ->
  f battery = f b ->
  List.map f (List.map (replace_by_id battery) bs) = List.map f bs.
Proof.
  intros Hnodup Hb Hf. rewrite List.map_map.
  apply List.map_ext_in. intros x Hx. unfold replace_by_id.
  destruct (String.eqb_spec (Battery.id x) (Battery.id battery)) as [E | _];
    [| reflexivity].
  pose proof (findBattery_unique _ _ Hnodup Hx) as Hfx.
  rewrite E, Hb in Hfx. injection Hfx as ->. exact Hf.
Qed.

(** A write keeps the ids of the inventory unique. *)
Lemma saveToStorage_NoDup battery prev :
  NoDup (List.map Battery.id prev) ->
  NoDup (List.map Battery.id (saveToStorage battery prev)).
Proof.
  intros Hnodup.
  destruct (findBattery (Battery.id battery) prev) as [b|] eqn:E.
  - rewrite (saveToStorage_found _ _ _ E).
    rewrite (map_replace_keeps Battery.id _ _ _ Hnodup E); [exact Hnodup |].
    symmetry. now apply findBattery_Some_id in E.
  - rewrite (saveToStorage_fresh _ _ E), List.map_app. cbn [List.map].
    apply NoDup_app. split; [exact Hnodup |].
    split; [| apply NoDup_singleton].
    intros i Hi Hi'. apply list_elem_of_In in Hi.
    apply list_elem_of_singleton in Hi'. subst i.
    apply List.in_map_iff in Hi as (x & Hx & Hin).
    pose proof (findBattery_unique _ _ Hnodup Hin) as Hfx.
    rewrite Hx, E in Hfx. discriminate.
Qed.

End Inventory.

Lemma findBattery_saveToStorage_id (i : string) (battery : Battery.t)
    (prev : list Battery.t) :
  Battery.id battery = i ->
  findBattery i (saveToStorage battery prev) = Some battery.
Proof. intros <-. apply findBattery_saveToStorage. Qed.

(** ** Consumption *)


Lemma cycles_Some (z : Z) (b : Battery.t) :
  Battery.chargeCycles b = Some z -> cycles b = z.
Proof.
  unfold cycles, JS.opt_or, JS.Z_or. intros ->.
  destruct (Z.eqb_spec z 0); lia.
Qed.

Lemma useBattery_missing (id : string) (bs : list Battery.t) :
  findBattery id bs = None -> useBattery id bs = bs.
Proof. unfold useBattery. intros ->. reflexivity. Qed.

Lemma useBattery_empty (id : string) (bs : list Battery.t) (b : Battery.t) :
  findBattery id bs = Some b -> Battery.quantity b <= 0 ->
  useBattery id bs = bs.
Proof.
  unfold useBattery. intros -> Hq.
  destruct (Z.leb_spec (Battery.quantity b) 0); [reflexivity | lia].
Qed.

Lemma useBattery_step (id : string) (bs : list Battery.t) (b : Battery.t) :
  findBattery id bs = Some b -> 0 < Battery.quantity b ->
  useBattery id bs =
    saveToStorage (if is_rechargeable (Battery.category b)
                   then useBattery_rechargeable b
                   else useBattery_consumable b) bs.
Proof.
  unfold useBattery. intros -> Hq.
  destruct (Z.leb_spec (Battery.quantity b) 0); [lia | reflexivity].
Qed.

(** The entity stored under [id] after a consumption that went through. *)
Lemma useBattery_stored (id : string) (bs : list Battery.t) (b : Battery.t) :
  findBattery id bs = Some b -> 0 < Battery.quantity b ->
  findBattery id (useBattery id bs) =
    Some (if is_rechargeable (Battery.category b)
          then useBattery_rechargeable b
          else useBattery_consumable b).
Proof.
  intros Hb Hq. rewrite (useBattery_step _ _ _ Hb Hq).
  apply findBattery_saveToStorage_id.
  apply findBattery_Some_id in Hb.
  destruct (is_rechargeable (Battery.category b)); exact Hb.
Qed.

(** Consumption leaves the entities under the other ids alone. *)
Lemma useBattery_other (id j : string) (bs : list Battery.t) :
  j <> id -> findBattery j (useBattery id bs) = findBattery j bs.
Proof.
  intros Hne. unfold useBattery.
  destruct (findBattery id bs) as [b|] eqn:Hb; [|reflexivity].
  destruct (Battery.quantity b <=? 0); [reflexivity|].
  apply findBattery_saveToStorage_ne.
  apply findBattery_Some_id in Hb.
  destruct (is_rechargeable (Battery.category b)); cbn; congruence.
Qed.

(** C2. Consuming from a battery type with no unit ready (quantity 0 or
    below), or under an id that the inventory does not hold, changes
    nothing: the inventory after is the inventory before, entry by
    entry.  [useBattery] is a total function, there is no error to raise. *)
Theorem useBattery_noop (id : string) (bs : list Battery.t) :
  (findBattery id bs = None \/
   exists b, findBattery id bs = Some b /\ Battery.quantity b <= 0) ->
  useBattery id bs = bs.
Proof.
  intros [Hnone | (b & Hb & Hq)].
  - now apply useBattery_missing.
  - now apply useBattery_empty with b.
Qed.

Lemma useBattery_noop_witness :
  (exists b, findBattery "a" [akku_all_in_use; primary_two] = Some b /\
             Battery.quantity b <= 0) /\
  useBattery "a" [akku_all_in_use; primary_two]
    = [akku_all_in_use; primary_two].
Proof.
  assert (exists b, findBattery "a" [akku_all_in_use; primary_two] = Some b /\
                    Battery.quantity b <= 0) as H.
  { exists akku_all_in_use. split; [reflexivity | simpl; lia]. }
  split; [exact H |].
  apply (useBattery_noop "a" [akku_all_in_use; primary_two]).
  right. exact H.
Defined.

(** Replace-by-id keeps a property that holds of every entry and of the
    entity written. *)
Lemma saveToStorage_Forall (P : Battery.t -> Prop) (battery : Battery.t)
    (prev : list Battery.t) :
  P battery -> Forall P prev -> Forall P (saveToStorage battery prev).
Proof.
  intros Hnew Hall. unfold saveToStorage.
  destruct (findBattery (Battery.id battery) prev).
  - apply List.Forall_forall. intros x Hx.
    apply List.in_map_iff in Hx as (y & <- & Hy).
    destruct (String.eqb (Battery.id y) (Battery.id battery));
      [exact Hnew |].
    now apply (proj1 (List.Forall_forall P prev) Hall).
  - apply List.Forall_app. split; [exact Hall | now constructor].
Qed.

Lemma findBattery_Forall (P : Battery.t -> Prop) (id : string)
    (bs : list Battery.t) (b : Battery.t) :
  Forall P bs -> findBattery id bs = Some b -> P b.
Proof.
  intros Hall Hb. unfold findBattery in Hb.
  apply List.find_some in Hb as [Hin _].
  now apply (proj1 (List.Forall_forall P bs) Hall).
Qed.

(** The accumulator is a count: no operation of the client stores a
    negative usageAccumulator in an inventory that held none
    ([saveBattery] for a form whose accumulator, when present, is not
    negative, as is that of a new form and of a form opened on a stored
    type). *)
Lemma operations_keep_accumulator_nonneg (bs : list Battery.t) :
  Forall (fun b => 0 <= Battery.usageAccumulator b) bs ->
  (forall i,
      Forall (fun b => 0 <= Battery.usageAccumulator b) (useBattery i bs)) /\
  (forall i amount freshId now,
      Forall (fun b => 0 <= Battery.usageAccumulator b)
        (executeCharge i amount freshId now bs)) /\
  (forall i eventId,
      Forall (fun b => 0 <= Battery.usageAccumulator b)
        (deleteHistoryEntry i eventId bs)) /\
  (forall i,
      Forall (fun b => 0 <= Battery.usageAccumulator b)
        (deleteFromStorage i bs)) /\
  (forall form freshId now,
      (forall a, Form.usageAccumulator form = Some a -> 0 <= a) ->
      Forall (fun b => 0 <= Battery.usageAccumulator b)
        (saveBattery form freshId now bs)).
Proof.
  intros Hall. repeat split.
  - intros i. unfold useBattery.
    destruct (findBattery i bs) as [b|] eqn:Hb; [| exact Hall].
    pose proof (findBattery_Forall _ _ _ _ Hall Hb) as Hacc.
    cbv beta in Hacc.
    destruct (Battery.quantity b <=? 0); [exact Hall |].
    apply saveToStorage_Forall; [| exact Hall].
    destruct (is_rechargeable (Battery.category b)); cbn; [| exact Hacc].
    destruct (_ >=? _); lia.
  - intros i amount freshId now. unfold executeCharge.
    destruct (findBattery i bs) as [b|] eqn:Hb; [| exact Hall].
    apply saveToStorage_Forall; [| exact Hall].
    exact (findBattery_Forall _ _ _ _ Hall Hb).
  - intros i eventId. unfold deleteHistoryEntry.
    destruct (findBattery i bs) as [b|] eqn:Hb; [| exact Hall].
    destruct (Battery.chargingHistory b); [| exact Hall].
    apply saveToStorage_Forall; [| exact Hall].
    exact (findBattery_Forall _ _ _ _ Hall Hb).
  - intros i. apply List.Forall_forall. intros x Hx.
    unfold deleteFromStorage in Hx. apply List.filter_In in Hx as [Hx _].
    now apply (proj1 (List.Forall_forall _ bs) Hall).
  - intros form freshId now Hform. unfold saveBattery.
    destruct (JS.str_falsy (Form.name form)); [exact Hall |].
    apply saveToStorage_Forall; [| exact Hall].
    cbn. destruct (Form.usageAccumulator form) as [a|]; cbn; [| lia].
    specialize (Hform a eq_refl). unfold JS.Z_or.
    destruct (Z.eqb_spec a 0); lia.
Qed.

(** C1. Consuming a unit of a rechargeable type with a unit ready
    stores quantity - 1, inUse + 1 and usageAccumulator + 1, except that
    when the incremented accumulator reaches or exceeds
    max(totalQuantity, 1) the accumulator is stored as 0 and the cycle
    count (a missing one read as 0) goes up by one instead.  Every
    other field of the type, and every other type of the inventory, is
    unchanged.  The stored values are the counts of the data model: it
    is enough that usageAccumulator is not negative, which every
    operation keeps ([operations_keep_accumulator_nonneg]), or that
    totalQuantity is not negative. *)
Theorem useBattery_rechargeable_spec (id : string) (bs : list Battery.t)
    (b : Battery.t) :
  findBattery id bs = Some b ->
  Battery.category b = RECHARGEABLE ->
  0 < Battery.quantity b ->
  0 <= Battery.usageAccumulator b \/ 0 <= Battery.totalQuantity b ->
  let next := Battery.usageAccumulator b + 1 in
  let batch := Z.max (Battery.totalQuantity b) 1 in
  (exists b',
      findBattery id (useBattery id bs) = Some b' /\
      Battery.quantity b' = Battery.quantity b - 1 /\
      Battery.inUse b' = Battery.inUse b + 1 /\
      (batch <= next ->
       Battery.usageAccumulator b' = 0 /\
       Battery.chargeCycles b' = Some (cycles b + 1)) /\
      (next < batch ->
       Battery.usageAccumulator b' = next /\
       Battery.chargeCycles b' = Some (cycles b)) /\
      Battery.id b' = Battery.id b /\
      Battery.name b' = Battery.name b /\
      Battery.brand b' = Battery.brand b /\
      Battery.size b' = Battery.size b /\
      Battery.category b' = Battery.category b /\
      Battery.totalQuantity b' = Battery.totalQuantity b /\
      Battery.minQuantity b' = Battery.minQuantity b /\
      Battery.capacityMah b' = Battery.capacityMah b /\
      Battery.lastCharged b' = Battery.lastCharged b /\
      Battery.chargingHistory b' = Battery.chargingHistory b) /\
  (forall j, j <> id -> findBattery j (useBattery id bs) = findBattery j bs).
Proof.
  intros Hb Hcat Hq Hcount next batch.
  split; [| intros j Hj; now apply useBattery_other].
  exists (useBattery_rechargeable b).
  rewrite (useBattery_stored _ _ _ Hb Hq), Hcat. cbn [is_rechargeable].
  split; [reflexivity |].
  unfold useBattery_rechargeable; cbn.
  fold (cycles b). unfold JS.Z_or. subst next batch.
  rewrite Z.geb_leb.
  destruct (Z.eqb_spec (Battery.totalQuantity b) 0);
    match goal with |- context [Z.leb ?x ?y] =>
      destruct (Z.leb_spec x y) end; fields.
Qed.

Lemma useBattery_rechargeable_spec_witness :
  exists b',
    findBattery "a" (useBattery "a" [akku_five; primary_two]) = Some b' /\
    Battery.quantity b' = 4 /\ Battery.inUse b' = 1 /\
    Battery.usageAccumulator b' = 0 /\ Battery.chargeCycles b' = Some 3.
Proof.
  destruct (useBattery_rechargeable_spec "a" [akku_five; primary_two] akku_five)
    as [(b' & Hf & Hquantity & HinUse & Hroll & _) _];
    [reflexivity | reflexivity | simpl; lia | left; simpl; lia |].
  exists b'. destruct Hroll as [Hacc Hcyc]; [simpl; lia |].
  repeat split; assumption.
Defined.

(** C3, as amended.  Consuming a unit of a PRIMARY or BUTTON_CELL type
    with a unit ready stores quantity - 1 and totalQuantity =
    max(0, t - 1), where t is totalQuantity when that is not 0 and
    quantity when it is 0.  So a non-zero total goes to
    max(0, totalQuantity - 1), and a total of 0 is replaced by
    quantity - 1.  The other fields are unchanged. *)
Theorem useBattery_consumable_spec (id : string) (bs : list Battery.t)
    (b : Battery.t) :
  findBattery id bs = Some b ->
  Battery.category b = PRIMARY \/ Battery.category b = BUTTON_CELL ->
  0 < Battery.quantity b ->
  exists b',
    findBattery id (useBattery id bs) = Some b' /\
    Battery.quantity b' = Battery.quantity b - 1 /\
    Battery.totalQuantity b' =
      Z.max 0 ((if Battery.totalQuantity b =? 0 then Battery.quantity b
                else Battery.totalQuantity b) - 1) /\
    (Battery.totalQuantity b <> 0 ->
     Battery.totalQuantity b' = Z.max 0 (Battery.totalQuantity b - 1)) /\
    (Battery.totalQuantity b = 0 ->
     Battery.totalQuantity b' = Battery.quantity b - 1) /\
    Battery.id b' = Battery.id b /\
    Battery.name b' = Battery.name b /\
    Battery.brand b' = Battery.brand b /\
    Battery.size b' = Battery.size b /\
    Battery.category b' = Battery.category b /\
    Battery.minQuantity b' = Battery.minQuantity b /\
    Battery.inUse b' = Battery.inUse b /\
    Battery.usageAccumulator b' = Battery.usageAccumulator b /\
    Battery.capacityMah b' = Battery.capacityMah b /\
    Battery.chargeCycles b' = Battery.chargeCycles b /\
    Battery.lastCharged b' = Battery.lastCharged b /\
    Battery.chargingHistory b' = Battery.chargingHistory b.
Proof.
  intros Hb Hcat Hq.
  exists (useBattery_consumable b).
  rewrite (useBattery_stored _ _ _ Hb Hq).
  assert (is_rechargeable (Battery.category b) = false) as ->
    by (destruct Hcat as [-> | ->]; reflexivity).
  split; [reflexivity |].
  unfold useBattery_consumable, JS.Z_or; cbn.
  destruct (Z.eqb_spec (Battery.totalQuantity b) 0); fields.
Qed.

Lemma useBattery_consumable_spec_witness :
  exists b',
    findBattery "p" (useBattery "p" [akku_five; primary_two]) = Some b' /\
    Battery.quantity b' = 1 /\ Battery.totalQuantity b' = 1.
Proof.
  destruct (useBattery_consumable_spec "p" [akku_five; primary_two] primary_two)
    as (b' & Hf & Hquantity & _ & Htotal & _);
    [reflexivity | left; reflexivity | simpl; lia |].
  exists b'. repeat split; [exact Hf | exact Hquantity |].
  apply Htotal. simpl. lia.
Defined.

(** C3 as worded fails for a PRIMARY type with five units ready and a
    recorded total of 0: the total does not stay 0, it becomes 4. *)
Lemma useBattery_consumable_counterexample :
  Battery.category primary_without_total = PRIMARY /\
  0 < Battery.quantity primary_without_total /\
  Battery.totalQuantity primary_without_total = 0 /\
  exists b',
    findBattery "p" (useBattery "p" [primary_without_total]) = Some b' /\
    Battery.totalQuantity b' = 4 /\
    ~ claimed_consume_consumable primary_without_total b'.
Proof.
  split; [reflexivity | split; [reflexivity | split; [reflexivity |]]].
  eexists. split; [reflexivity |]. split; [reflexivity |].
  unfold claimed_consume_consumable. cbn.
  intros [_ Ht]. discriminate Ht.
Qed.

(** C10, as amended.  After consuming a unit of a rechargeable type with
    a unit ready, the stored accumulator satisfies
    0 <= usageAccumulator < max(totalQuantity, 1) exactly when the
    accumulator before was at least -1 or at least totalQuantity - 1.
    In particular this holds for every accumulator that was not
    negative, however far above the batch size. *)
Theorem useBattery_accumulator_range (id : string) (bs : list Battery.t)
    (b : Battery.t) :
  findBattery id bs = Some b ->
  Battery.category b = RECHARGEABLE ->
  0 < Battery.quantity b ->
  exists b',
    findBattery id (useBattery id bs) = Some b' /\
    (0 <= Battery.usageAccumulator b' < Z.max (Battery.totalQuantity b') 1
     <-> -1 <= Battery.usageAccumulator b \/
         Battery.totalQuantity b - 1 <= Battery.usageAccumulator b) /\
    (0 <= Battery.usageAccumulator b ->
     0 <= Battery.usageAccumulator b' < Z.max (Battery.totalQuantity b') 1).
Proof.
  intros Hb Hcat Hq.
  exists (useBattery_rechargeable b).
  rewrite (useBattery_stored _ _ _ Hb Hq), Hcat. cbn [is_rechargeable].
  split; [reflexivity |].
  unfold useBattery_rechargeable, JS.Z_or; cbn.
  rewrite Z.geb_leb.
  destruct (Z.eqb_spec (Battery.totalQuantity b) 0) as [Ht | Ht];
    [rewrite Ht |];
    match goal with |- context [Z.leb ?x ?y] =>
      destruct (Z.leb_spec x y) end; lia.
Qed.

Lemma useBattery_accumulator_range_witness :
  exists b',
    findBattery "a" (useBattery "a" [akku_five; primary_two]) = Some b' /\
    0 <= Battery.usageAccumulator b' < Z.max (Battery.totalQuantity b') 1.
Proof.
  destruct (useBattery_accumulator_range "a" [akku_five; primary_two] akku_five)
    as (b' & Hf & _ & Hrange);
    [reflexivity | reflexivity | simpl; lia |].
  exists b'. split; [exact Hf |]. apply Hrange. simpl. lia.
Defined.

(** C10 as worded fails for a rechargeable type of five units whose
    accumulator is -5: one consumption stores -4, which is below 0. *)
Lemma useBattery_accumulator_range_counterexample :
  Battery.category akku_negative_accumulator = RECHARGEABLE /\
  0 < Battery.quantity akku_negative_accumulator /\
  exists b',
    findBattery "a" (useBattery "a" [akku_negative_accumulator]) = Some b' /\
    Battery.usageAccumulator b' = -4 /\
    ~ claimed_accumulator_range b'.
Proof.
  split; [reflexivity | split; [reflexivity |]].
  eexists. split; [reflexivity |]. split; [reflexivity |].
  unfold claimed_accumulator_range. intros [Hlow _].
  vm_compute in Hlow. now apply Hlow.
Qed.

(** ** Recharge *)

Lemma executeCharge_missing (batteryId : string) (amount : Z)
    (freshId now : string) (bs : list Battery.t) :
  findBattery batteryId bs = None ->
  executeCharge batteryId amount freshId now bs = bs.
Proof. unfold executeCharge. intros ->. reflexivity. Qed.

(** The entity stored under the id after a recharge. *)
Lemma executeCharge_stored (batteryId : string) (amount : Z)
    (freshId now : string) (bs : list Battery.t) (b : Battery.t) :
  findBattery batteryId bs = Some b ->
  findBattery batteryId (executeCharge batteryId amount freshId now bs)
    = Some (executeCharge_updated b amount freshId now).
Proof.
  intros Hb. unfold executeCharge. rewrite Hb.
  apply findBattery_saveToStorage_id. cbn.
  now apply findBattery_Some_id in Hb.
Qed.

(** Recharging leaves the entities under the other ids alone. *)
Lemma executeCharge_other (batteryId j : string) (amount : Z)
    (freshId now : string) (bs : list Battery.t) :
  j <> batteryId ->
  findBattery j (executeCharge batteryId amount freshId now bs)
    = findBattery j bs.
Proof.
  intros Hne. unfold executeCharge.
  destruct (findBattery batteryId bs) as [b|] eqn:Hb; [|reflexivity].
  apply findBattery_saveToStorage_ne.
  apply findBattery_Some_id in Hb. cbn. congruence.
Qed.

(** C4. For every inventory, id, requested amount, fresh id and clock
    reading: when the id is not found the recharge changes nothing;
    when it is found, with moveAmount = min(inUse, amount), the entity
    stored under the id has quantity + moveAmount, inUse - moveAmount,
    lastCharged = now and a ledger that is the old one (empty when
    missing) with the one event (fresh id, now, moveAmount) in front;
    its other fields are unchanged. *)
Theorem executeCharge_spec (batteryId : string) (amount : Z)
    (freshId now : string) (bs : list Battery.t) :
  match findBattery batteryId bs with
  | None => executeCharge batteryId amount freshId now bs = bs
  | Some b =>
      let moveAmount := Z.min (Battery.inUse b) amount in
      exists b',
        findBattery batteryId (executeCharge batteryId amount freshId now bs)
          = Some b' /\
        Battery.quantity b' = Battery.quantity b + moveAmount /\
        Battery.inUse b' = Battery.inUse b - moveAmount /\
        Battery.lastCharged b' = Some now /\
        Battery.chargingHistory b' =
          Some (ChargingEvent.mk freshId now moveAmount
                  :: history_or_empty b) /\
        Battery.id b' = Battery.id b /\
        Battery.name b' = Battery.name b /\
        Battery.brand b' = Battery.brand b /\
        Battery.size b' = Battery.size b /\
        Battery.category b' = Battery.category b /\
        Battery.totalQuantity b' = Battery.totalQuantity b /\
        Battery.minQuantity b' = Battery.minQuantity b /\
        Battery.capacityMah b' = Battery.capacityMah b
  end.
Proof.
  destruct (findBattery batteryId bs) as [b|] eqn:Hb.
  - intros moveAmount. exists (executeCharge_updated b amount freshId now).
    split; [now apply executeCharge_stored |].
    cbn. fields.
  - now apply executeCharge_missing.
Qed.

Lemma executeCharge_spec_witness :
  exists b',
    findBattery "a" (executeCharge "a" 10 "e9" "2024-04-01T08:00:00.000Z"
                       [akku_with_ledger; primary_two]) = Some b' /\
    Battery.quantity b' = 5 /\ Battery.inUse b' = 0 /\
    Battery.chargingHistory b' =
      Some (ChargingEvent.mk "e9" "2024-04-01T08:00:00.000Z" 3 :: ledger).
Proof.
  destruct (executeCharge_spec "a" 10 "e9" "2024-04-01T08:00:00.000Z"
              [akku_with_ledger; primary_two])
    as (b' & Hf & Hq & Hi & _ & Hh & _).
  exists b'. repeat split; assumption.
Defined.

(** C5. A recharge never changes usageAccumulator or chargeCycles: under
    every id, the entity stored after the recharge has the accumulator
    and the cycle count (missing or not) of the entity stored before;
    and in an inventory with unique ids the two columns of the whole
    list are unchanged, entry by entry. *)
Theorem executeCharge_keeps_cycle_counters (batteryId : string)
    (amount : Z) (freshId now : string) (bs : list Battery.t) :
  let bs' := executeCharge batteryId amount freshId now bs in
  (forall j,
      Battery.usageAccumulator <$> findBattery j bs'
        = Battery.usageAccumulator <$> findBattery j bs /\
      Battery.chargeCycles <$> findBattery j bs'
        = Battery.chargeCycles <$> findBattery j bs) /\
  (NoDup (List.map Battery.id bs) ->
   List.map Battery.usageAccumulator bs'
     = List.map Battery.usageAccumulator bs /\
   List.map Battery.chargeCycles bs' = List.map Battery.chargeCycles bs).
Proof.
  intros bs'. subst bs'. split.
  - intros j. destruct (String.eqb_spec j batteryId) as [-> | Hne].
    + destruct (findBattery batteryId bs) as [b|] eqn:Hb.
      * rewrite (executeCharge_stored _ _ _ _ _ _ Hb). split; reflexivity.
      * rewrite (executeCharge_missing _ _ _ _ _ Hb), Hb. split; reflexivity.
    + rewrite executeCharge_other by assumption. split; reflexivity.
  - intros Hnodup. unfold executeCharge.
    destruct (findBattery batteryId bs) as [b|] eqn:Hb; [| split; reflexivity].
    assert (findBattery
              (Battery.id (executeCharge_updated b amount freshId now)) bs
            = Some b) as Hb'
      by (cbn; now rewrite (findBattery_Some_id _ _ _ Hb)).
    rewrite (saveToStorage_found _ _ _ Hb').
    split; eapply map_replace_keeps; eauto.
Qed.

Lemma executeCharge_keeps_cycle_counters_witness :
  NoDup (List.map Battery.id [akku_with_ledger; primary_two]) /\
  List.map Battery.usageAccumulator
    (executeCharge "a" 2 "e9" "2024-04-01T08:00:00.000Z"
       [akku_with_ledger; primary_two]) = [1; 0] /\
  List.map Battery.chargeCycles
    (executeCharge "a" 2 "e9" "2024-04-01T08:00:00.000Z"
       [akku_with_ledger; primary_two]) = [Some 7; None].
Proof.
  assert (NoDup (List.map Battery.id [akku_with_ledger; primary_two])) as H.
  { apply NoDup_ListNoDup. repeat constructor; cbn; intuition discriminate. }
  split; [exact H |].
  destruct (executeCharge_keeps_cycle_counters "a" 2 "e9"
              "2024-04-01T08:00:00.000Z" [akku_with_ledger; primary_two])
    as [_ Hcols].
  destruct (Hcols H) as [Hacc Hcyc]. split; assumption.
Defined.

(** With nothing in use, the dialog never holds a negative amount. *)
Lemma dialog_amount_nonneg (b : Battery.t) (a : Z) :
  Battery.inUse b = 0 -> dialog_amount b a -> 0 <= a.
Proof.
  intros Hin Ha. induction Ha as [| | a _ IH | a _ IH].
  - lia.
  - rewrite Hin. cbn. lia.
  - lia.
  - rewrite Hin. cbn. lia.
Qed.

(** C9. For a rechargeable type that is found and has inUse = 0, a
    recharge of any requested amount that is not negative (as is every
    amount that the dialog can hold, [dialog_amount_nonneg]) still
    stores a new event with count 0 in front of the ledger and sets
    lastCharged to now, while quantity and inUse are unchanged. *)
Theorem executeCharge_nothing_in_use (batteryId : string) (amount : Z)
    (freshId now : string) (bs : list Battery.t) (b : Battery.t) :
  findBattery batteryId bs = Some b ->
  Battery.category b = RECHARGEABLE ->
  Battery.inUse b = 0 ->
  0 <= amount ->
  exists b',
    findBattery batteryId (executeCharge batteryId amount freshId now bs)
      = Some b' /\
    Battery.chargingHistory b' =
      Some (ChargingEvent.mk freshId now 0 :: history_or_empty b) /\
    Battery.lastCharged b' = Some now /\
    Battery.quantity b' = Battery.quantity b /\
    Battery.inUse b' = Battery.inUse b.
Proof.
  intros Hb _ Hin Hamount.
  exists (executeCharge_updated b amount freshId now).
  split; [now apply executeCharge_stored |].
  unfold executeCharge_updated; cbn. fold (history_or_empty b).
  replace (Z.min (Battery.inUse b) amount) with 0 by lia.
  fields.
Qed.

Lemma executeCharge_nothing_in_use_witness :
  exists b',
    findBattery "a" (executeCharge "a" 1 "e9" "2024-04-01T08:00:00.000Z"
                       [akku_idle; primary_two]) = Some b' /\
    Battery.chargingHistory b' =
      Some [ChargingEvent.mk "e9" "2024-04-01T08:00:00.000Z" 0] /\
    Battery.lastCharged b' = Some "2024-04-01T08:00:00.000Z" /\
    Battery.quantity b' = 5 /\ Battery.inUse b' = 0.
Proof.
  apply (executeCharge_nothing_in_use "a" 1 "e9" "2024-04-01T08:00:00.000Z"
           [akku_idle; primary_two] akku_idle);
    [reflexivity | reflexivity | reflexivity | lia].
Defined.

(** ** History ledger *)

Lemma filter_sublist {A : Type} (f : A -> bool) (l : list A) :
  sublist (List.filter f l) l.
Proof.
  induction l as [|x l IH]; cbn [List.filter].
  - constructor.
  - destruct (f x); now constructor.
Qed.

Lemma deleteHistoryEntry_stored (batteryId eventId : string)
    (bs : list Battery.t) (b : Battery.t) (h : list ChargingEvent.t) :
  findBattery batteryId bs = Some b ->
  Battery.chargingHistory b = Some h ->
  findBattery batteryId (deleteHistoryEntry batteryId eventId bs)
    = Some (deleteHistoryEntry_updated b h eventId).
Proof.
  intros Hb Hh. unfold deleteHistoryEntry. rewrite Hb, Hh.
  apply findBattery_saveToStorage_id. cbn.
  now apply findBattery_Some_id in Hb.
Qed.

Lemma deleteHistoryEntry_other (batteryId eventId j : string)
    (bs : list Battery.t) :
  j <> batteryId ->
  findBattery j (deleteHistoryEntry batteryId eventId bs) = findBattery j bs.
Proof.
  intros Hne. unfold deleteHistoryEntry.
  destruct (findBattery batteryId bs) as [b|] eqn:Hb; [|reflexivity].
  destruct (Battery.chargingHistory b) as [h|]; [|reflexivity].
  apply findBattery_saveToStorage_ne.
  apply findBattery_Some_id in Hb. cbn. congruence.
Qed.

(** C6. Deleting a history entry of a battery type that is found and has
    a ledger stores a ledger that holds exactly the events of the old
    one whose id is not the given one, in their old order, and changes
    no other field of the type; when the type is not found or has no
    ledger, the inventory is unchanged.  The entities under the other
    ids are unchanged in every case. *)
Theorem deleteHistoryEntry_spec (batteryId eventId : string)
    (bs : list Battery.t) :
  match findBattery batteryId bs with
  | None => deleteHistoryEntry batteryId eventId bs = bs
  | Some b =>
      match Battery.chargingHistory b with
      | None => deleteHistoryEntry batteryId eventId bs = bs
      | Some h =>
          exists b' h',
            findBattery batteryId (deleteHistoryEntry batteryId eventId bs)
              = Some b' /\
            Battery.chargingHistory b' = Some h' /\
            (forall e, In e h' <-> In e h /\ ChargingEvent.id e <> eventId) /\
            sublist h' h /\
            h' = List.filter
                   (fun e => negb (String.eqb (ChargingEvent.id e) eventId)) h /\
            Battery.quantity b' = Battery.quantity b /\
            Battery.inUse b' = Battery.inUse b /\
            Battery.usageAccumulator b' = Battery.usageAccumulator b /\
            Battery.chargeCycles b' = Battery.chargeCycles b /\
            Battery.id b' = Battery.id b /\
            Battery.name b' = Battery.name b /\
            Battery.brand b' = Battery.brand b /\
            Battery.size b' = Battery.size b /\
            Battery.category b' = Battery.category b /\
            Battery.totalQuantity b' = Battery.totalQuantity b /\
            Battery.minQuantity b' = Battery.minQuantity b /\
            Battery.capacityMah b' = Battery.capacityMah b /\
            Battery.lastCharged b' = Battery.lastCharged b
      end
  end /\
  (forall j, j <> batteryId ->
     findBattery j (deleteHistoryEntry batteryId eventId bs)
       = findBattery j bs).
Proof.
  split; [| intros j Hj; now apply deleteHistoryEntry_other].
  destruct (findBattery batteryId bs) as [b|] eqn:Hb.
  - destruct (Battery.chargingHistory b) as [h|] eqn:Hh.
    + exists (deleteHistoryEntry_updated b h eventId).
      eexists. split; [now apply deleteHistoryEntry_stored |].
      split; [reflexivity |].
      split.
      { intros e. rewrite List.filter_In, negb_true_iff.
        split; intros [Hin He]; (split; [exact Hin |]).
        - now apply String.eqb_neq.
        - now apply String.eqb_neq. }
      split; [apply filter_sublist |].
      cbn. fields.
    + unfold deleteHistoryEntry. now rewrite Hb, Hh.
  - unfold deleteHistoryEntry. now rewrite Hb.
Qed.

Lemma deleteHistoryEntry_spec_witness :
  exists b',
    findBattery "a" (deleteHistoryEntry "a" "e3" [akku_with_ledger; primary_two])
      = Some b' /\
    Battery.chargingHistory b' =
      Some [ChargingEvent.mk "e2" "2024-02-01T10:00:00.000Z" 1] /\
    Battery.quantity b' = 2 /\ Battery.inUse b' = 3 /\
    findBattery "p" (deleteHistoryEntry "a" "e3" [akku_with_ledger; primary_two])
      = Some primary_two.
Proof.
  destruct (deleteHistoryEntry_spec "a" "e3" [akku_with_ledger; primary_two])
    as [(b' & h' & Hf & Hh & _ & _ & Heq & Hq & Hi & _) Hother].
  exists b'. split; [exact Hf |].
  split; [rewrite Hh, Heq; reflexivity |].
  split; [exact Hq |]. split; [exact Hi |].
  rewrite Hother; [reflexivity | discriminate].
Defined.

(** ** Upsert *)

Lemma str_or_present (s : option string) (d d' : string) :
  JS.str_falsy s = false -> JS.str_or s d = JS.str_or s d'.
Proof.
  destruct s as [v|]; cbn; [|discriminate]. now intros ->.
Qed.

Lemma saveBattery_battery_id (form : Form.t) (f1 f2 now1 now2 : string) :
  JS.str_falsy (Form.id form) = false ->
  Battery.id (saveBattery_battery form f1 now1)
    = Battery.id (saveBattery_battery form f2 now2).
Proof. intros Hid. cbn. now apply str_or_present. Qed.

(** With an id in the form, the entity built depends on the clock only
    through the default of [lastCharged]. *)
Lemma saveBattery_battery_clock (form : Form.t) (f1 f2 now1 now2 : string) :
  JS.str_falsy (Form.id form) = false ->
  form_isRechargeable form = false \/
  JS.str_falsy (Form.lastCharged form) = false \/ now1 = now2 ->
  saveBattery_battery form f1 now1 = saveBattery_battery form f2 now2.
Proof.
  intros Hid Hclock. unfold saveBattery_battery.
  rewrite (str_or_present _ f1 f2 Hid).
  destruct (form_isRechargeable form); [| reflexivity].
  destruct Hclock as [Hr | [Hl | ->]]; [discriminate | | reflexivity].
  now rewrite (str_or_present _ now1 now2 Hl).
Qed.

(** A second [saveBattery] of a form with an id overwrites the first. *)
Lemma saveBattery_overwrite (form : Form.t) (f1 f2 now1 now2 : string)
    (bs : list Battery.t) :
  JS.str_falsy (Form.id form) = false ->
  saveBattery form f2 now2 (saveBattery form f1 now1 bs)
    = saveBattery form f2 now2 bs.
Proof.
  intros Hid. unfold saveBattery.
  destruct (JS.str_falsy (Form.name form)); [reflexivity |].
  apply saveToStorage_overwrite. now apply saveBattery_battery_id.
Qed.

Lemma post_batteries_replay (body : Server.Body)
    (db : gmap string Server.Row) :
  Server.post_batteries body (Server.post_batteries body db).2
    = Server.post_batteries body db.
Proof.
  unfold Server.post_batteries.
  destruct (Server.id body) as [i|]; [| reflexivity].
  destruct (Server.name body) as [n|]; [| reflexivity].
  destruct (String.eqb i "" || String.eqb n "")%bool; [reflexivity |].
  cbn [snd]. now rewrite insert_insert_eq.
Qed.

(** C7, as amended.  Replaying an upsert:
    - the replace-by-id write to the local list is idempotent for every
      entity, and so is the endpoint of the server for every request
      body (same response, same table);
    - [saveBattery] replayed with a form that has an id stores what a
      single [saveBattery] stores at the clock reading of the replay;
      that is the result of the first run whenever the form is not
      RECHARGEABLE, or carries a non-empty [lastCharged], or the clock
      reads the same both times. *)
Theorem upsert_replay :
  (forall (battery : Battery.t) (bs : list Battery.t),
      saveToStorage battery (saveToStorage battery bs)
        = saveToStorage battery bs) /\
  (forall (body : Server.Body) (db : gmap string Server.Row),
      Server.post_batteries body (Server.post_batteries body db).2
        = Server.post_batteries body db) /\
  (forall (form : Form.t) (f1 f2 now1 now2 : string) (bs : list Battery.t),
      JS.str_falsy (Form.id form) = false ->
      saveBattery form f2 now2 (saveBattery form f1 now1 bs)
        = saveBattery form f2 now2 bs /\
      (form_isRechargeable form = false \/
       JS.str_falsy (Form.lastCharged form) = false \/ now1 = now2 ->
       saveBattery form f2 now2 (saveBattery form f1 now1 bs)
         = saveBattery form f1 now1 bs)).
Proof.
  split; [| split].
  - intros battery bs. now apply saveToStorage_overwrite.
  - apply post_batteries_replay.
  - intros form f1 f2 now1 now2 bs Hid.
    split; [now apply saveBattery_overwrite |].
    intros Hclock. rewrite (saveBattery_overwrite _ _ _ _ _ _ Hid).
    unfold saveBattery.
    now rewrite (saveBattery_battery_clock form f1 f2 now1 now2 Hid Hclock).
Qed.

Lemma upsert_replay_witness :
  JS.str_falsy (Form.id form_primary_two) = false /\
  form_isRechargeable form_primary_two = false /\
  saveBattery form_primary_two "g2" "2024-01-02T00:00:00.000Z"
    (saveBattery form_primary_two "g1" "2024-01-01T00:00:00.000Z" [akku_five])
  = saveBattery form_primary_two "g1" "2024-01-01T00:00:00.000Z" [akku_five] /\
  Server.post_batteries body_primary_two
    (Server.post_batteries body_primary_two ∅).2
  = Server.post_batteries body_primary_two ∅.
Proof.
  destruct upsert_replay as (_ & Hserver & Hform).
  split; [reflexivity |]. split; [reflexivity |].
  split; [| apply Hserver].
  apply (Hform form_primary_two "g1" "g2" "2024-01-01T00:00:00.000Z"
           "2024-01-02T00:00:00.000Z" [akku_five]);
    [reflexivity | left; reflexivity].
Defined.

(** C7 as worded fails for the form of a rechargeable type without a
    date of last charge: each run stores the reading of the clock as
    [lastCharged], so the entity stored after the replay is not the one
    stored after the first run. *)
Lemma upsert_replay_counterexample :
  JS.str_falsy (Form.id form_akku_new) = false /\
  saveBattery form_akku_new "g2" "2024-01-02T00:00:00.000Z"
    (saveBattery form_akku_new "g1" "2024-01-01T00:00:00.000Z" [])
  <> saveBattery form_akku_new "g1" "2024-01-01T00:00:00.000Z" [] /\
  Battery.lastCharged
    <$> findBattery "a"
          (saveBattery form_akku_new "g1" "2024-01-01T00:00:00.000Z" [])
  = Some (Some "2024-01-01T00:00:00.000Z") /\
  Battery.lastCharged
    <$> findBattery "a"
          (saveBattery form_akku_new "g2" "2024-01-02T00:00:00.000Z"
             (saveBattery form_akku_new "g1" "2024-01-01T00:00:00.000Z" []))
  = Some (Some "2024-01-02T00:00:00.000Z").
Proof.
  split; [reflexivity |].
  split; [| split; reflexivity].
  vm_compute. discriminate.
Qed.

(** The entity stored under its id after [saveBattery] of a form with a
    name. *)
Lemma saveBattery_stored (form : Form.t) (freshId now : string)
    (bs : list Battery.t) :
  JS.str_falsy (Form.name form) = false ->
  findBattery (JS.str_or (Form.id form) freshId)
    (saveBattery form freshId now bs)
    = Some (saveBattery_battery form freshId now).
Proof.
  intros Hname. unfold saveBattery. rewrite Hname.
  now apply findBattery_saveToStorage_id.
Qed.

(** C8, as amended.  For a form with a name whose category is PRIMARY or
    BUTTON_CELL, the entity that [saveBattery] stores has inUse = 0, no
    capacityMah, no chargeCycles and no lastCharged, and its
    totalQuantity equals its quantity when that is not 0 and is 1 when
    the quantity is 0. *)
Theorem saveBattery_consumable_fields (form : Form.t) (freshId now : string)
    (bs : list Battery.t) :
  JS.str_falsy (Form.name form) = false ->
  Form.category form = Some PRIMARY \/
  Form.category form = Some BUTTON_CELL ->
  exists b',
    findBattery (JS.str_or (Form.id form) freshId)
      (saveBattery form freshId now bs) = Some b' /\
    Battery.inUse b' = 0 /\
    Battery.capacityMah b' = None /\
    Battery.chargeCycles b' = None /\
    Battery.lastCharged b' = None /\
    Battery.totalQuantity b' =
      (if Battery.quantity b' =? 0 then 1 else Battery.quantity b') /\
    (Battery.quantity b' <> 0 ->
     Battery.totalQuantity b' = Battery.quantity b') /\
    (Battery.quantity b' = 0 -> Battery.totalQuantity b' = 1).
Proof.
  intros Hname Hcat.
  exists (saveBattery_battery form freshId now).
  split; [now apply saveBattery_stored |].
  assert (form_isRechargeable form = false) as Hr
    by (unfold form_isRechargeable; destruct Hcat as [-> | ->]; reflexivity).
  unfold saveBattery_battery. rewrite Hr. cbn.
  repeat (split; [reflexivity |]).
  destruct (Form.quantity form) as [q|]; cbn; unfold JS.Z_or.
  - destruct (Z.eqb_spec q 0) as [-> | Hq]; cbn.
    + fields.
    + destruct (Z.eqb_spec q 0); [lia | fields].
  - fields.
Qed.

Lemma saveBattery_consumable_fields_witness :
  exists b',
    findBattery "p"
      (saveBattery form_primary_two "g1" "2024-01-01T00:00:00.000Z" [akku_five])
      = Some b' /\
    Battery.inUse b' = 0 /\ Battery.capacityMah b' = None /\
    Battery.chargeCycles b' = None /\ Battery.lastCharged b' = None /\
    Battery.quantity b' = 2 /\ Battery.totalQuantity b' = 2.
Proof.
  destruct (saveBattery_consumable_fields form_primary_two "g1"
              "2024-01-01T00:00:00.000Z" [akku_five])
    as (b' & Hf & Hi & Hc & Hy & Hl & Ht & _);
    [reflexivity | left; reflexivity |].
  exists b'. repeat (split; [assumption |]).
  cbn in Hf. injection Hf as <-. split; reflexivity.
Defined.

(** C8 as worded fails for a PRIMARY form with quantity 0: the entity
    stored has quantity 0 and totalQuantity 1. *)
Lemma saveBattery_consumable_counterexample :
  JS.str_falsy (Form.name form_primary_zero) = false /\
  Form.category form_primary_zero = Some PRIMARY /\
  exists b',
    findBattery "p"
      (saveBattery form_primary_zero "g1" "2024-01-01T00:00:00.000Z" [])
      = Some b' /\
    Battery.quantity b' = 0 /\
    Battery.totalQuantity b' = 1 /\
    ~ claimed_total_equals_quantity b'.
Proof.
  split; [reflexivity | split; [reflexivity |]].
  eexists. split; [reflexivity |].
  split; [reflexivity | split; [reflexivity |]].
  unfold claimed_total_equals_quantity. cbn. discriminate.
Qed.

(** * Further properties of the code *)

(** ** The local list as a store keyed by id *)

Lemma findBattery_deleteFromStorage_eq (i : string) (prev : list Battery.t) :
  findBattery i (deleteFromStorage i prev) = None.
Proof.
  induction prev as [|b prev IH]; [reflexivity |].
  unfold deleteFromStorage in *. cbn [List.filter].
  destruct (String.eqb (Battery.id b) i) eqn:E; cbn [negb]; [exact IH |].
  rewrite findBattery_cons, E. exact IH.
Qed.

Lemma findBattery_deleteFromStorage_ne (i j : string)
    (prev : list Battery.t) :
  j <> i -> findBattery j (deleteFromStorage i prev) = findBattery j prev.
Proof.
  intros Hne. induction prev as [|b prev IH]; [reflexivity |].
  unfold deleteFromStorage in *. cbn [List.filter].
  rewrite findBattery_cons.
  destruct (String.eqb_spec (Battery.id b) i) as [E | E]; cbn [negb].
  - assert (String.eqb (Battery.id b) j = false) as ->
      by (apply String.eqb_neq; congruence).
    exact IH.
  - rewrite findBattery_cons. now rewrite IH.
Qed.

Lemma deleteFromStorage_missing (i : string) (prev : list Battery.t) :
  findBattery i prev = None -> deleteFromStorage i prev = prev.
Proof.
  induction prev as [|b prev IH]; [reflexivity |].
  rewrite findBattery_cons. unfold deleteFromStorage in *.
  cbn [List.filter].
  destruct (String.eqb (Battery.id b) i); [discriminate |].
  intros H. cbn [negb]. now rewrite IH.
Qed.

(** X1. Reading back after a write: under the id of the entity written
    the list holds that entity, under every other id it holds what it
    held before. *)
Theorem saveToStorage_read_back (battery : Battery.t)
    (prev : list Battery.t) (j : string) :
  findBattery j (saveToStorage battery prev) =
    if String.eqb j (Battery.id battery) then Some battery
    else findBattery j prev.
Proof.
  destruct (String.eqb_spec j (Battery.id battery)) as [-> | Hne].
  - apply findBattery_saveToStorage.
  - now apply findBattery_saveToStorage_ne.
Qed.

(** X2. A write never reorders the inventory: when the id is already
    there the list of ids is unchanged (the entry is replaced in
    place), otherwise the id is added at the end. *)
Theorem saveToStorage_ids (battery : Battery.t) (prev : list Battery.t) :
  List.map Battery.id (saveToStorage battery prev) =
    match findBattery (Battery.id battery) prev with
    | Some _ => List.map Battery.id prev
    | None => (List.map Battery.id prev ++ [Battery.id battery])%list
    end.
Proof.
  destruct (findBattery (Battery.id battery) prev) as [b|] eqn:E.
  - rewrite (saveToStorage_found _ _ _ E), List.map_map.
    apply List.map_ext. intros x. unfold replace_by_id.
    destruct (String.eqb_spec (Battery.id x) (Battery.id battery));
      congruence.
  - now rewrite (saveToStorage_fresh _ _ E), List.map_app.
Qed.

(** X3. Reading back after a removal: the id removed is no longer
    found, every other id is found as before. *)
Theorem deleteFromStorage_read_back (i j : string) (prev : list Battery.t) :
  findBattery j (deleteFromStorage i prev) =
    if String.eqb j i then None else findBattery j prev.
Proof.
  destruct (String.eqb_spec j i) as [-> | Hne].
  - apply findBattery_deleteFromStorage_eq.
  - now apply findBattery_deleteFromStorage_ne.
Qed.

(** X4. Removing an id that the inventory does not hold changes
    nothing, and removing a type right after it was added as a new one
    gives back the inventory as it was. *)
Theorem deleteFromStorage_undoes_new (battery : Battery.t)
    (prev : list Battery.t) :
  findBattery (Battery.id battery) prev = None ->
  deleteFromStorage (Battery.id battery) prev = prev /\
  deleteFromStorage (Battery.id battery) (saveToStorage battery prev) = prev.
Proof.
  intros Hnew. split; [now apply deleteFromStorage_missing |].
  rewrite (saveToStorage_fresh _ _ Hnew).
  unfold deleteFromStorage. rewrite List.filter_app. cbn [List.filter].
  rewrite String.eqb_refl. cbn [negb].
  rewrite List.app_nil_r. now apply deleteFromStorage_missing.
Qed.

Lemma deleteFromStorage_undoes_new_witness :
  findBattery "p" [akku_five] = None /\
  deleteFromStorage "p" (saveToStorage primary_two [akku_five]) = [akku_five].
Proof.
  split; [reflexivity |].
  apply (deleteFromStorage_undoes_new primary_two [akku_five]). reflexivity.
Defined.

Lemma deleteFromStorage_NoDup (i : string) (prev : list Battery.t) :
  NoDup (List.map Battery.id prev) ->
  NoDup (List.map Battery.id (deleteFromStorage i prev)).
Proof.
  induction prev as [|b prev IH]; [trivial |].
  unfold deleteFromStorage in *. cbn [List.filter List.map].
  rewrite NoDup_cons. intros [Hnotin Hnodup].
  destruct (negb (String.eqb (Battery.id b) i)); [| now apply IH].
  cbn [List.map]. rewrite NoDup_cons. split; [| now apply IH].
  intros Hin. apply Hnotin.
  apply list_elem_of_In in Hin. apply list_elem_of_In.
  apply List.in_map_iff in Hin as (x & Hx & Hin).
  apply List.filter_In in Hin as [Hin _].
  apply List.in_map_iff. now exists x.
Qed.

(** X5. Every operation of the client keeps the ids of the inventory
    unique. *)
Theorem operations_keep_ids_unique (bs : list Battery.t) :
  NoDup (List.map Battery.id bs) ->
  (forall battery, NoDup (List.map Battery.id (saveToStorage battery bs))) /\
  (forall i, NoDup (List.map Battery.id (deleteFromStorage i bs))) /\
  (forall i, NoDup (List.map Battery.id (useBattery i bs))) /\
  (forall i amount freshId now,
      NoDup (List.map Battery.id (executeCharge i amount freshId now bs))) /\
  (forall i eventId,
      NoDup (List.map Battery.id (deleteHistoryEntry i eventId bs))) /\
  (forall form freshId now,
      NoDup (List.map Battery.id (saveBattery form freshId now bs))).
Proof.
  intros Hnodup. repeat split.
  - intros battery. now apply saveToStorage_NoDup.
  - intros i. now apply deleteFromStorage_NoDup.
  - intros i. unfold useBattery.
    destruct (findBattery i bs) as [b|]; [| exact Hnodup].
    destruct (Battery.quantity b <=? 0); [exact Hnodup |].
    now apply saveToStorage_NoDup.
  - intros i amount freshId now. unfold executeCharge.
    destruct (findBattery i bs) as [b|]; [| exact Hnodup].
    now apply saveToStorage_NoDup.
  - intros i eventId. unfold deleteHistoryEntry.
    destruct (findBattery i bs) as [b|]; [| exact Hnodup].
    destruct (Battery.chargingHistory b); [| exact Hnodup].
    now apply saveToStorage_NoDup.
  - intros form freshId now. unfold saveBattery.
    destruct (JS.str_falsy (Form.name form)); [exact Hnodup |].
    now apply saveToStorage_NoDup.
Qed.

Lemma operations_keep_ids_unique_witness :
  NoDup (List.map Battery.id [akku_with_ledger; primary_two]) /\
  NoDup (List.map Battery.id
           (saveBattery form_button_cell "g1" "2024-01-01T00:00:00.000Z"
              [akku_with_ledger; primary_two])).
Proof.
  assert (NoDup (List.map Battery.id [akku_with_ledger; primary_two])) as H.
  { apply NoDup_ListNoDup. repeat constructor; cbn; intuition discriminate. }
  split; [exact H |].
  apply (operations_keep_ids_unique [akku_with_ledger; primary_two] H).
Defined.

(** ** Counters under consumption and recharge *)

(** The entity stored under the id after a consumption, whether it went
    through or not. *)
Lemma useBattery_stored_any (id : string) (bs : list Battery.t)
    (b : Battery.t) :
  findBattery id bs = Some b ->
  findBattery id (useBattery id bs) =
    Some (if Battery.quantity b <=? 0 then b
          else if is_rechargeable (Battery.category b)
               then useBattery_rechargeable b
               else useBattery_consumable b).
Proof.
  intros Hb.
  destruct (Z.leb_spec (Battery.quantity b) 0) as [Hq | Hq].
  - now rewrite (useBattery_empty _ _ _ Hb Hq).
  - now apply useBattery_stored.
Qed.

(** X6. Units are conserved.  A recharge of any amount keeps
    quantity + inUse of the type, and so does the consumption of a
    rechargeable unit, which also keeps totalQuantity: the relation
    quantity + inUse <= totalQuantity survives both operations. *)
Theorem units_conserved (id : string) (bs : list Battery.t) (b : Battery.t) :
  findBattery id bs = Some b ->
  (forall amount freshId now, exists b',
      findBattery id (executeCharge id amount freshId now bs) = Some b' /\
      Battery.quantity b' + Battery.inUse b'
        = Battery.quantity b + Battery.inUse b /\
      Battery.totalQuantity b' = Battery.totalQuantity b) /\
  (Battery.category b = RECHARGEABLE -> exists b',
      findBattery id (useBattery id bs) = Some b' /\
      Battery.quantity b' + Battery.inUse b'
        = Battery.quantity b + Battery.inUse b /\
      Battery.totalQuantity b' = Battery.totalQuantity b).
Proof.
  intros Hb. split.
  - intros amount freshId now.
    exists (executeCharge_updated b amount freshId now).
    split; [now apply executeCharge_stored |]. cbn. lia.
  - intros Hcat. eexists. split; [apply (useBattery_stored_any _ _ _ Hb) |].
    rewrite Hcat. cbn [is_rechargeable].
    destruct (Battery.quantity b <=? 0); cbn; lia.
Qed.

Lemma units_conserved_witness :
  exists b',
    findBattery "a" (useBattery "a" [akku_with_ledger; primary_two])
      = Some b' /\
    Battery.quantity b' + Battery.inUse b' = 5 /\
    Battery.totalQuantity b' = 5.
Proof.
  destruct (units_conserved "a" [akku_with_ledger; primary_two]
              akku_with_ledger) as [_ Huse]; [reflexivity |].
  destruct Huse as (b' & Hf & Hsum & Htotal); [reflexivity |].
  exists b'. repeat split; assumption.
Defined.

(** X7. A recharge never leaves a negative inUse: whatever inUse and the
    requested amount are, the stored inUse is max(0, inUse - amount).
    With a requested amount that is not negative, quantity does not go
    down and inUse does not go up. *)
Theorem executeCharge_inUse_floor (id : string) (amount : Z)
    (freshId now : string) (bs : list Battery.t) (b : Battery.t) :
  findBattery id bs = Some b ->
  exists b',
    findBattery id (executeCharge id amount freshId now bs) = Some b' /\
    Battery.inUse b' = Z.max 0 (Battery.inUse b - amount) /\
    0 <= Battery.inUse b' /\
    (0 <= amount -> 0 <= Battery.inUse b ->
     Battery.quantity b <= Battery.quantity b' /\
     Battery.inUse b' <= Battery.inUse b).
Proof.
  intros Hb. exists (executeCharge_updated b amount freshId now).
  split; [now apply executeCharge_stored |]. cbn. lia.
Qed.

Lemma executeCharge_inUse_floor_witness :
  exists b',
    findBattery "a" (executeCharge "a" 10 "e9" "2024-04-01T08:00:00.000Z"
                       [akku_with_ledger; primary_two]) = Some b' /\
    Battery.inUse b' = 0.
Proof.
  destruct (executeCharge_inUse_floor "a" 10 "e9" "2024-04-01T08:00:00.000Z"
              [akku_with_ledger; primary_two] akku_with_ledger)
    as (b' & Hf & Hin & _); [reflexivity |].
  exists b'. split; [exact Hf | exact Hin].
Defined.

(** X8. A consumption never takes quantity below zero and never lowers
    the cycle count: for a type with quantity >= 0, the stored quantity
    is between 0 and the old one, and the cycle count (a missing one
    read as 0) goes up by 0 or 1. *)
Theorem useBattery_monotone (id : string) (bs : list Battery.t)
    (b : Battery.t) :
  findBattery id bs = Some b ->
  0 <= Battery.quantity b ->
  exists b',
    findBattery id (useBattery id bs) = Some b' /\
    0 <= Battery.quantity b' <= Battery.quantity b /\
    cycles b <= cycles b' <= cycles b + 1.
Proof.
  intros Hb Hq. eexists. split; [apply (useBattery_stored_any _ _ _ Hb) |].
  destruct (Z.leb_spec (Battery.quantity b) 0); [lia |].
  destruct (is_rechargeable (Battery.category b)).
  - unfold cycles at 1 4. unfold useBattery_rechargeable; cbn.
    fold (cycles b).
    destruct (_ >=? _); unfold JS.Z_or;
      match goal with |- context [Z.eqb ?x 0] =>
        destruct (Z.eqb_spec x 0) end; lia.
  - unfold cycles. cbn. lia.
Qed.

Lemma useBattery_monotone_witness :
  exists b',
    findBattery "a" (useBattery "a" [akku_five; primary_two]) = Some b' /\
    0 <= Battery.quantity b' <= 5 /\ 2 <= cycles b' <= 3.
Proof.
  destruct (useBattery_monotone "a" [akku_five; primary_two] akku_five)
    as (b' & Hf & Hq & Hc); [reflexivity | simpl; lia |].
  exists b'. repeat split; first [exact Hf | apply Hq | apply Hc].
Defined.

(** X9. Recharging one unit right after consuming one of a rechargeable
    type (with inUse >= 0) gives back the old quantity and inUse; the
    accumulator and the cycle count keep the step that the consumption
    made. *)
Theorem useBattery_then_executeCharge (id freshId now : string)
    (bs : list Battery.t) (b : Battery.t) :
  findBattery id bs = Some b ->
  Battery.category b = RECHARGEABLE ->
  0 < Battery.quantity b ->
  0 <= Battery.inUse b ->
  exists b1 b2,
    findBattery id (useBattery id bs) = Some b1 /\
    findBattery id (executeCharge id 1 freshId now (useBattery id bs))
      = Some b2 /\
    Battery.quantity b2 = Battery.quantity b /\
    Battery.inUse b2 = Battery.inUse b /\
    Battery.usageAccumulator b2 = Battery.usageAccumulator b1 /\
    Battery.chargeCycles b2 = Battery.chargeCycles b1 /\
    Battery.chargingHistory b2 =
      Some (ChargingEvent.mk freshId now 1 :: history_or_empty b).
Proof.
  intros Hb Hcat Hq Hin.
  pose proof (useBattery_stored _ _ _ Hb Hq) as H1.
  rewrite Hcat in H1. cbn [is_rechargeable] in H1.
  exists (useBattery_rechargeable b).
  exists (executeCharge_updated (useBattery_rechargeable b) 1 freshId now).
  split; [exact H1 |].
  split; [now apply executeCharge_stored |].
  unfold executeCharge_updated, useBattery_rechargeable; cbn.
  fold (history_or_empty b).
  replace (Z.min (Battery.inUse b + 1) 1) with 1 by lia.
  fields.
Qed.

Lemma useBattery_then_executeCharge_witness :
  exists b2,
    findBattery "a"
      (executeCharge "a" 1 "e9" "2024-04-01T08:00:00.000Z"
         (useBattery "a" [akku_with_ledger; primary_two])) = Some b2 /\
    Battery.quantity b2 = 2 /\ Battery.inUse b2 = 3.
Proof.
  destruct (useBattery_then_executeCharge "a" "e9" "2024-04-01T08:00:00.000Z"
              [akku_with_ledger; primary_two] akku_with_ledger)
    as (b1 & b2 & _ & Hf & Hq & Hi & _);
    [reflexivity | reflexivity | simpl; lia | simpl; lia |].
  exists b2. repeat split; assumption.
Defined.

(** X10. For a disposable type whose totalQuantity equals its quantity,
    consumption keeps the two equal: they go down together, and stay
    as they are when no unit is ready. *)
Theorem useBattery_consumable_in_step (id : string) (bs : list Battery.t)
    (b : Battery.t) :
  findBattery id bs = Some b ->
  Battery.category b <> RECHARGEABLE ->
  Battery.totalQuantity b = Battery.quantity b ->
  exists b',
    findBattery id (useBattery id bs) = Some b' /\
    Battery.totalQuantity b' = Battery.quantity b'.
Proof.
  intros Hb Hcat Ht. eexists.
  split; [apply (useBattery_stored_any _ _ _ Hb) |].
  destruct (Z.leb_spec (Battery.quantity b) 0); [exact Ht |].
  assert (is_rechargeable (Battery.category b) = false) as ->
    by (destruct (Battery.category b); [reflexivity | reflexivity | easy]).
  unfold useBattery_consumable, JS.Z_or; cbn. rewrite Ht.
  destruct (Z.eqb_spec (Battery.quantity b) 0); lia.
Qed.

Lemma useBattery_consumable_in_step_witness :
  exists b',
    findBattery "p" (useBattery "p" [akku_five; primary_two]) = Some b' /\
    Battery.totalQuantity b' = Battery.quantity b'.
Proof.
  apply (useBattery_consumable_in_step "p" [akku_five; primary_two]
           primary_two); [reflexivity | discriminate | reflexivity].
Defined.



Lemma filter_other_ids (eventId : string) (h : list ChargingEvent.t) :
  ~ In eventId (event_ids h) ->
  List.filter (fun e => negb (String.eqb (ChargingEvent.id e) eventId)) h = h.
Proof.
  induction h as [|e h IH]; [reflexivity |].
  cbn [event_ids List.map List.filter]. intros Hnotin.
  destruct (String.eqb_spec (ChargingEvent.id e) eventId) as [E | _].
  - exfalso. apply Hnotin. now left.
  - cbn [negb]. f_equal. apply IH. intros Hin. apply Hnotin. now right.
Qed.

(** X12. Deleting the ledger entry of a recharge, when its id is not the
    id of an older entry, gives back the old ledger but does not undo
    the recharge: quantity, inUse and lastCharged stay as the recharge
    left them. *)
Theorem executeCharge_then_deleteHistoryEntry (id freshId now : string)
    (amount : Z) (bs : list Battery.t) (b : Battery.t) :
  findBattery id bs = Some b ->
  ~ In freshId (event_ids (history_or_empty b)) ->
  exists b',
    findBattery id
      (deleteHistoryEntry id freshId
         (executeCharge id amount freshId now bs)) = Some b' /\
    Battery.chargingHistory b' = Some (history_or_empty b) /\
    Battery.quantity b' =
      Battery.quantity b + Z.min (Battery.inUse b) amount /\
    Battery.inUse b' = Battery.inUse b - Z.min (Battery.inUse b) amount /\
    Battery.lastCharged b' = Some now.
Proof.
  intros Hb Hfresh.
  pose proof (executeCharge_stored id amount freshId now bs b Hb) as H1.
  eexists. split.
  - eapply deleteHistoryEntry_stored; [exact H1 | reflexivity].
  - unfold deleteHistoryEntry_updated; cbn. rewrite String.eqb_refl.
    cbn [negb]. fold (history_or_empty b).
    rewrite (filter_other_ids _ _ Hfresh). fields.
Qed.

Lemma executeCharge_then_deleteHistoryEntry_witness :
  exists b',
    findBattery "a"
      (deleteHistoryEntry "a" "e9"
         (executeCharge "a" 2 "e9" "2024-04-01T08:00:00.000Z"
            [akku_with_ledger; primary_two])) = Some b' /\
    Battery.chargingHistory b' = Some ledger /\
    Battery.quantity b' = 4 /\ Battery.inUse b' = 1.
Proof.
  destruct (executeCharge_then_deleteHistoryEntry "a" "e9"
              "2024-04-01T08:00:00.000Z" 2 [akku_with_ledger; primary_two]
              akku_with_ledger)
    as (b' & Hf & Hh & Hq & Hi & _).
  - reflexivity.
  - cbn. intuition discriminate.
  - exists b'. repeat split; assumption.
Defined.

(** ** A batch rotating through use *)

Lemma iter_useBattery_rechargeable_frame (k : nat) (b : Battery.t) :
  let b' := Nat.iter k useBattery_rechargeable b in
  Battery.quantity b' = Battery.quantity b - Z.of_nat k /\
  Battery.inUse b' = Battery.inUse b + Z.of_nat k /\
  Battery.totalQuantity b' = Battery.totalQuantity b /\
  Battery.category b' = Battery.category b.
Proof.
  induction k as [|k IH]; [cbn; fields |].
  rewrite Nat.iter_succ. cbv zeta in *. destruct IH as (Hq & Hi & Ht & Hc).
  remember (Nat.iter k useBattery_rechargeable b) as bk.
  unfold useBattery_rechargeable.
  cbn [Battery.quantity Battery.inUse Battery.totalQuantity Battery.category].
  rewrite Hq, Hi, Ht, Hc. fields.
Qed.

Lemma Z_or_0 (z : Z) : JS.Z_or z 0 = z.
Proof. unfold JS.Z_or. destruct (Z.eqb_spec z 0); lia. Qed.

Lemma rotation_step (n m : Z) :
  1 <= n -> 0 <= m ->
  (if m mod n + 1 >=? n then 0 else m mod n + 1) = (m + 1) mod n /\
  m / n + (if m mod n + 1 >=? n then 1 else 0) = (m + 1) / n.
Proof.
  intros Hn Hm. rewrite Z.geb_leb.
  pose proof (Z.div_mod m n ltac:(lia)) as Hdm.
  pose proof (Z.mod_pos_bound m n ltac:(lia)) as Hr.
  destruct (Z.leb_spec n (m mod n + 1)) as [Hroll | Hstay].
  - assert (m + 1 = n * (m / n + 1) + 0) as E by lia.
    split.
    + apply (Z.mod_unique_pos (m + 1) n (m / n + 1) 0); [lia | exact E].
    + apply (Z.div_unique_pos (m + 1) n (m / n + 1) 0); [lia | exact E].
  - assert (m + 1 = n * (m / n) + (m mod n + 1)) as E by lia.
    split.
    + apply (Z.mod_unique_pos (m + 1) n (m / n) (m mod n + 1)); [lia | exact E].
    + rewrite Z.add_0_r.
      apply (Z.div_unique_pos (m + 1) n (m / n) (m mod n + 1));
        [lia | exact E].
Qed.

Lemma iter_useBattery_rechargeable_cycle (k : nat) (b : Battery.t) :
  1 <= Battery.totalQuantity b ->
  0 <= Battery.usageAccumulator b < Battery.totalQuantity b ->
  let b' := Nat.iter k useBattery_rechargeable b in
  Battery.usageAccumulator b' =
    (Battery.usageAccumulator b + Z.of_nat k) mod Battery.totalQuantity b /\
  cycles b' =
    cycles b
    + (Battery.usageAccumulator b + Z.of_nat k) / Battery.totalQuantity b.
Proof.
  intros Hn Hacc. induction k as [|k IH]; cbv zeta in *.
  - change (Nat.iter 0 useBattery_rechargeable b) with b.
    rewrite Z.add_0_r.
    rewrite Z.mod_small, Z.div_small by lia. lia.
  - rewrite Nat.iter_succ. destruct IH as [Ha Hc].
    destruct (iter_useBattery_rechargeable_frame k b) as (_ & _ & Ht & _).
    cbv zeta in Ht.
    set (bk := Nat.iter k useBattery_rechargeable b) in *.
    destruct (rotation_step (Battery.totalQuantity b)
                (Battery.usageAccumulator b + Z.of_nat k)) as [Hmod Hdiv];
      [lia | lia |].
    replace (Battery.usageAccumulator b + Z.of_nat (S k))
      with (Battery.usageAccumulator b + Z.of_nat k + 1) by lia.
    rewrite <- Hmod, <- Hdiv, <- Ha.
    unfold cycles at 1. unfold useBattery_rechargeable; cbn.
    fold (cycles bk). rewrite Ht.
    assert (JS.Z_or (Battery.totalQuantity b) 1 = Battery.totalQuantity b)
      as -> by (unfold JS.Z_or;
                destruct (Z.eqb_spec (Battery.totalQuantity b) 0); lia).
    rewrite Z_or_0. split; [reflexivity |].
    rewrite Hc.
    destruct (Battery.usageAccumulator bk + 1 >=? Battery.totalQuantity b);
      lia.
Qed.

Lemma iter_useBattery_stored (id : string) (k : nat) (bs : list Battery.t)
    (b : Battery.t) :
  findBattery id bs = Some b ->
  Battery.category b = RECHARGEABLE ->
  Z.of_nat k <= Battery.quantity b ->
  findBattery id (Nat.iter k (useBattery id) bs)
    = Some (Nat.iter k useBattery_rechargeable b).
Proof.
  intros Hb Hcat. induction k as [|k IH]; intros Hk; [exact Hb |].
  rewrite !Nat.iter_succ.
  destruct (iter_useBattery_rechargeable_frame k b) as (Hq & _ & _ & Hc).
  cbv zeta in Hq, Hc.
  rewrite (useBattery_stored id _ _ (IH ltac:(lia))) by lia.
  now rewrite Hc, Hcat.
Qed.

(** X13. A batch rotating through use.  For a rechargeable type with
    totalQuantity = n >= 1 and an accumulator in [0, n), consuming k
    units in a row (k <= quantity) stores quantity - k, inUse + k, the
    accumulator (usageAccumulator + k) mod n and the cycle count raised
    by (usageAccumulator + k) / n: one cycle per n consumptions. *)
Theorem useBattery_rotation (id : string) (k : nat) (bs : list Battery.t)
    (b : Battery.t) :
  findBattery id bs = Some b ->
  Battery.category b = RECHARGEABLE ->
  1 <= Battery.totalQuantity b ->
  0 <= Battery.usageAccumulator b < Battery.totalQuantity b ->
  Z.of_nat k <= Battery.quantity b ->
  exists b',
    findBattery id (Nat.iter k (useBattery id) bs) = Some b' /\
    Battery.quantity b' = Battery.quantity b - Z.of_nat k /\
    Battery.inUse b' = Battery.inUse b + Z.of_nat k /\
    Battery.totalQuantity b' = Battery.totalQuantity b /\
    Battery.usageAccumulator b' =
      (Battery.usageAccumulator b + Z.of_nat k) mod Battery.totalQuantity b /\
    cycles b' =
      cycles b
      + (Battery.usageAccumulator b + Z.of_nat k) / Battery.totalQuantity b.
Proof.
  intros Hb Hcat Hn Hacc Hk.
  exists (Nat.iter k useBattery_rechargeable b).
  split; [now apply iter_useBattery_stored |].
  destruct (iter_useBattery_rechargeable_frame k b) as (Hq & Hi & Ht & _).
  destruct (iter_useBattery_rechargeable_cycle k b Hn Hacc) as [Ha Hc].
  repeat split; assumption.
Qed.

Lemma useBattery_rotation_witness :
  exists b',
    findBattery "a" (Nat.iter 5 (useBattery "a") [akku_five; primary_two])
      = Some b' /\
    Battery.quantity b' = 0 /\ Battery.inUse b' = 5 /\
    Battery.usageAccumulator b' = 4 /\ cycles b' = 3.
Proof.
  destruct (useBattery_rotation "a" 5 [akku_five; primary_two] akku_five)
    as (b' & Hf & Hq & Hi & _ & Ha & Hc);
    [reflexivity | reflexivity | simpl; lia | simpl; lia | simpl; lia |].
  exists b'. repeat split; assumption.
Defined.

(** ** The entity that an upsert stores *)

Lemma str_or_Some_nonempty (v d : string) :
  v <> "" -> JS.str_or (Some v) d = v.
Proof.
  intros Hv. cbn. now destruct (String.eqb_spec v "").
Qed.

Lemma str_or_Some_empty (v : string) : JS.str_or (Some v) "" = v.
Proof. cbn. now destruct (String.eqb_spec v "") as [-> |]. Qed.

Lemma str_or_nonempty (s : option string) (d : string) :
  d <> "" -> JS.str_or s d <> "".
Proof.
  intros Hd. destruct s as [v|]; cbn; [| exact Hd].
  now destruct (String.eqb_spec v "").
Qed.

Lemma str_or_present_nonempty (s : option string) (d : string) :
  JS.str_falsy s = false -> JS.str_or s d <> "".
Proof.
  destruct s as [v|]; cbn; [| discriminate].
  now destruct (String.eqb_spec v "").
Qed.

Lemma num_or_0 (z : Z) : JS.num_or (JS.NumberZ (Some z)) 0 = z.
Proof. cbn. destruct (Z.eqb_spec z 0); lia. Qed.

Lemma opt_or_nonzero (x : option Z) (d : Z) : d <> 0 -> JS.opt_or x d <> 0.
Proof.
  intros Hd. destruct x as [z|]; cbn; [| exact Hd].
  unfold JS.Z_or. destruct (Z.eqb_spec z 0); assumption.
Qed.

Lemma Z_or_nonzero (z d : Z) : z <> 0 -> JS.Z_or z d = z.
Proof. intros Hz. unfold JS.Z_or. now destruct (Z.eqb_spec z 0). Qed.

Lemma form_isRechargeable_category (form : Form.t) :
  is_rechargeable (match Form.category form with
                   | Some c => c
                   | None => PRIMARY
                   end) = form_isRechargeable form.
Proof.
  unfold form_isRechargeable.
  now destruct (Form.category form) as [[]|].
Qed.

(** X14. Opening a stored type in the edit form and saving it unchanged
    stores the same entity again: for an entity that [saveBattery]
    built (from a form with a name, with a non-empty generated id and
    clock reading), whatever the id generator and the clock give the
    second time. *)
Theorem saveBattery_edit_unchanged (form : Form.t)
    (freshId now freshId' now' : string) (bs : list Battery.t) :
  JS.str_falsy (Form.name form) = false ->
  freshId <> "" -> now <> "" ->
  let battery := saveBattery_battery form freshId now in
  saveBattery_battery (form_of_battery battery) freshId' now' = battery /\
  saveBattery (form_of_battery battery) freshId' now'
    (saveBattery form freshId now bs)
  = saveBattery form freshId now bs.
Proof.
  intros Hname Hfresh Hnow battery.
  assert (saveBattery_battery (form_of_battery battery) freshId' now'
          = battery) as Hsame.
  { subst battery. unfold saveBattery_battery at 1.
    unfold form_of_battery, form_isRechargeable.
    cbn [Form.id Form.name Form.brand Form.size Form.category Form.quantity
         Form.totalQuantity Form.minQuantity Form.inUse Form.usageAccumulator
         Form.capacityMah Form.chargeCycles Form.lastCharged
         Form.chargingHistory].
    unfold saveBattery_battery.
    cbn [Battery.id Battery.name Battery.brand Battery.size Battery.category
         Battery.quantity Battery.totalQuantity Battery.minQuantity
         Battery.inUse Battery.usageAccumulator Battery.capacityMah
         Battery.chargeCycles Battery.lastCharged Battery.chargingHistory].
    pose proof (form_isRechargeable_category form) as Hcat.
    unfold is_rechargeable in Hcat. rewrite Hcat.
    rewrite (str_or_Some_nonempty (JS.str_or (Form.id form) freshId))
      by now apply str_or_nonempty.
    rewrite !(str_or_Some_nonempty (JS.str_or (Form.name form) "?"))
      by now apply str_or_present_nonempty.
    rewrite str_or_Some_empty.
    rewrite (str_or_Some_nonempty (JS.str_or (Form.size form) _))
      by (apply str_or_nonempty; now apply str_or_present_nonempty).
    rewrite !num_or_0.
    f_equal.
    - destruct (form_isRechargeable form).
      + cbn. apply Z_or_nonzero. now apply opt_or_nonzero.
      + destruct (Form.quantity form) as [q|]; [| reflexivity].
        now rewrite num_or_0.
    - now destruct (form_isRechargeable form).
    - cbn. apply Z_or_0.
    - now destruct (form_isRechargeable form).
    - destruct (form_isRechargeable form); [| reflexivity].
      cbn. now rewrite Z_or_0.
    - destruct (form_isRechargeable form); [| reflexivity].
      f_equal. apply str_or_Some_nonempty. now apply str_or_nonempty. }
  split; [exact Hsame |].
  unfold saveBattery at 1. cbn [form_of_battery Form.name].
  assert (JS.str_falsy (Some (Battery.name battery)) = false) as ->.
  { subst battery. cbn.
    apply String.eqb_neq. now apply str_or_present_nonempty. }
  rewrite Hsame. unfold saveBattery. rewrite Hname.
  now apply saveToStorage_overwrite.
Qed.

Lemma saveBattery_edit_unchanged_witness :
  saveBattery
    (form_of_battery
       (saveBattery_battery form_akku_new "g1" "2024-01-01T00:00:00.000Z"))
    "g2" "2024-01-02T00:00:00.000Z"
    (saveBattery form_akku_new "g1" "2024-01-01T00:00:00.000Z" [primary_two])
  = saveBattery form_akku_new "g1" "2024-01-01T00:00:00.000Z" [primary_two].
Proof.
  apply (saveBattery_edit_unchanged form_akku_new "g1"
           "2024-01-01T00:00:00.000Z" "g2" "2024-01-02T00:00:00.000Z"
           [primary_two]); [reflexivity | discriminate | discriminate].
Defined.

(** X15. What an upsert never stores: the entity that [saveBattery]
    builds from a form with a name has a non-empty name and size, a
    totalQuantity that is not 0 (so the batch size of a rechargeable
    type is its totalQuantity), a ledger, and a non-empty id when the
    generated id is not empty; a rechargeable one also has a cycle
    count and, when the clock reading is not empty, a non-empty
    lastCharged. *)
Theorem saveBattery_entity_wellformed (form : Form.t) (freshId now : string) :
  JS.str_falsy (Form.name form) = false ->
  let battery := saveBattery_battery form freshId now in
  Battery.name battery <> "" /\
  Battery.size battery <> "" /\
  Battery.totalQuantity battery <> 0 /\
  JS.Z_or (Battery.totalQuantity battery) 1 = Battery.totalQuantity battery /\
  Battery.chargingHistory battery <> None /\
  (freshId <> "" -> Battery.id battery <> "") /\
  (Battery.category battery = RECHARGEABLE ->
   Battery.chargeCycles battery <> None /\
   (now <> "" ->
    exists l, Battery.lastCharged battery = Some l /\ l <> "")).
Proof.
  intros Hname battery. subst battery. unfold saveBattery_battery.
  cbn [Battery.id Battery.name Battery.size Battery.category
       Battery.totalQuantity Battery.chargeCycles Battery.lastCharged
       Battery.chargingHistory].
  assert ((if form_isRechargeable form
           then JS.opt_or (Form.totalQuantity form) 1
           else JS.opt_or (Form.quantity form) 1) <> 0) as Htotal
    by (destruct (form_isRechargeable form); now apply opt_or_nonzero).
  repeat split.
  - now apply str_or_present_nonempty.
  - apply str_or_nonempty. now apply str_or_present_nonempty.
  - exact Htotal.
  - now apply Z_or_nonzero.
  - discriminate.
  - intros Hfresh. now apply str_or_nonempty.
  - pose proof (form_isRechargeable_category form) as Hr.
    match goal with Hc : _ = RECHARGEABLE |- _ => rewrite Hc in Hr end.
    cbn in Hr. now rewrite <- Hr.
  - intros Hnow. pose proof (form_isRechargeable_category form) as Hr.
    match goal with Hc : _ = RECHARGEABLE |- _ => rewrite Hc in Hr end.
    cbn in Hr. rewrite <- Hr.
    eexists. split; [reflexivity |]. now apply str_or_nonempty.
Qed.

Lemma saveBattery_entity_wellformed_witness :
  Battery.totalQuantity
    (saveBattery_battery form_primary_zero "g1" "2024-01-01T00:00:00.000Z")
  <> 0.
Proof.
  apply (saveBattery_entity_wellformed form_primary_zero "g1"
           "2024-01-01T00:00:00.000Z"). reflexivity.
Defined.

(** ** The statistics cards *)

Lemma sumZ_acc (f : Battery.t -> Z) (bs : list Battery.t) (a : Z) :
  fold_left (fun a b => a + f b) bs a = a + sumZ f bs.
Proof.
  unfold sumZ. revert a. induction bs as [|b bs IH]; intros a; cbn.
  - lia.
  - rewrite (IH (a + f b)), (IH (0 + f b)). lia.
Qed.

Lemma sumZ_cons (f : Battery.t -> Z) (b : Battery.t) (bs : list Battery.t) :
  sumZ f (b :: bs) = f b + sumZ f bs.
Proof. unfold sumZ at 1. cbn. apply sumZ_acc. Qed.

Lemma statusReady_sum (bs : list Battery.t) :
  statusReady bs = sumZ Battery.quantity bs.
Proof.
  unfold statusReady, sumZ.
  enough (forall a,
             fold_left (fun a b => a + JS.Z_or (Battery.quantity b) 0) bs a
             = fold_left (fun a b => a + Battery.quantity b) bs a) as H
    by apply H.
  induction bs as [|b bs IH]; intros a; cbn [fold_left]; [reflexivity |].
  now rewrite Z_or_0, IH.
Qed.

Lemma totalInventory_sum (bs : list Battery.t) :
  totalInventory bs = sumZ Battery.totalQuantity bs.
Proof.
  unfold totalInventory, sumZ.
  enough (forall a,
             fold_left (fun a b => a + JS.Z_or (Battery.totalQuantity b) 0)
               bs a
             = fold_left (fun a b => a + Battery.totalQuantity b) bs a) as H
    by apply H.
  induction bs as [|b bs IH]; intros a; cbn [fold_left]; [reflexivity |].
  now rewrite Z_or_0, IH.
Qed.

Lemma map_replace_absent (battery : Battery.t) (bs : list Battery.t) :
  findBattery (Battery.id battery) bs = None ->
  List.map (replace_by_id battery) bs = bs.
Proof.
  induction bs as [|b bs IH]; [reflexivity |].
  rewrite findBattery_cons. cbn [List.map]. unfold replace_by_id at 1.
  destruct (String.eqb (Battery.id b) (Battery.id battery));
    [discriminate |].
  intros H. now rewrite IH.
Qed.

(** Replacing by id in an inventory with unique ids changes the sum of
    a column by the difference between the new and the old entity. *)
Lemma sumZ_replace (f : Battery.t -> Z) (battery b : Battery.t)
    (bs : list Battery.t) :
  NoDup (List.map Battery.id bs) ->
  findBattery (Battery.id battery) bs = Some b ->
  sumZ f (List.map (replace_by_id battery) bs) = sumZ f bs - f b + f battery.
Proof.
  induction bs as [|b0 bs IH]; [discriminate |].
  cbn [List.map]. rewrite NoDup_cons, findBattery_cons, !sumZ_cons.
  intros [Hnotin Hnodup]. unfold replace_by_id at 1.
  destruct (String.eqb_spec (Battery.id b0) (Battery.id battery)) as [E | _].
  - intros [= ->]. rewrite map_replace_absent; [lia |].
    destruct (findBattery (Battery.id battery) bs) as [x|] eqn:Hx;
      [| reflexivity].
    exfalso. apply Hnotin. rewrite E.
    pose proof (findBattery_Some_id _ _ _ Hx) as <-.
    apply list_elem_of_In, List.in_map.
    unfold findBattery in Hx. now apply List.find_some in Hx as [Hin _].
  - intros Hb. rewrite (IH Hnodup Hb). lia.
Qed.

(** X16. Consumption and the statistics cards.  In an inventory with
    unique ids, consuming a unit (of a type with a unit ready) lowers
    the number of ready units shown by exactly one; the total inventory
    shown is unchanged for a rechargeable type and goes down by one for
    a disposable type with a totalQuantity of at least 1. *)
Theorem useBattery_statistics (id : string) (bs : list Battery.t)
    (b : Battery.t) :
  NoDup (List.map Battery.id bs) ->
  findBattery id bs = Some b ->
  0 < Battery.quantity b ->
  statusReady (useBattery id bs) = statusReady bs - 1 /\
  (Battery.category b = RECHARGEABLE ->
   totalInventory (useBattery id bs) = totalInventory bs) /\
  (Battery.category b <> RECHARGEABLE -> 1 <= Battery.totalQuantity b ->
   totalInventory (useBattery id bs) = totalInventory bs - 1).
Proof.
  intros Hnodup Hb Hq.
  rewrite (useBattery_step _ _ _ Hb Hq), !statusReady_sum, !totalInventory_sum.
  set (updated := if is_rechargeable (Battery.category b)
                  then useBattery_rechargeable b
                  else useBattery_consumable b).
  assert (Battery.id updated = id) as Hid.
  { subst updated. apply findBattery_Some_id in Hb.
    now destruct (is_rechargeable (Battery.category b)). }
  assert (findBattery (Battery.id updated) bs = Some b) as Hb'
    by now rewrite Hid.
  rewrite (saveToStorage_found _ _ _ Hb').
  rewrite !(sumZ_replace _ _ _ _ Hnodup Hb').
  subst updated. repeat split.
  - destruct (is_rechargeable (Battery.category b)); cbn; lia.
  - intros ->. cbn. lia.
  - intros Hcat Ht.
    assert (is_rechargeable (Battery.category b) = false) as ->
      by (destruct (Battery.category b); [reflexivity | reflexivity | easy]).
    cbn. rewrite Z_or_nonzero by lia. lia.
Qed.

Lemma useBattery_statistics_witness :
  statusReady (useBattery "p" [akku_with_ledger; primary_two])
    = statusReady [akku_with_ledger; primary_two] - 1 /\
  totalInventory (useBattery "p" [akku_with_ledger; primary_two])
    = totalInventory [akku_with_ledger; primary_two] - 1.
Proof.
  assert (NoDup (List.map Battery.id [akku_with_ledger; primary_two])) as H.
  { apply NoDup_ListNoDup. repeat constructor; cbn; intuition discriminate. }
  destruct (useBattery_statistics "p" [akku_with_ledger; primary_two]
              primary_two H) as (Hready & _ & Htotal);
    [reflexivity | simpl; lia |].
  split; [exact Hready |].
  apply Htotal; [discriminate | simpl; lia].
Defined.

(** X17. Recharge and the statistics cards.  In an inventory with unique
    ids, a recharge raises the number of ready units shown by the
    amount moved, min(inUse, amount), and leaves the total inventory
    shown unchanged. *)
Theorem executeCharge_statistics (id : string) (amount : Z)
    (freshId now : string) (bs : list Battery.t) (b : Battery.t) :
  NoDup (List.map Battery.id bs) ->
  findBattery id bs = Some b ->
  statusReady (executeCharge id amount freshId now bs)
    = statusReady bs + Z.min (Battery.inUse b) amount /\
  totalInventory (executeCharge id amount freshId now bs)
    = totalInventory bs.
Proof.
  intros Hnodup Hb. unfold executeCharge. rewrite Hb.
  rewrite !statusReady_sum, !totalInventory_sum.
  assert (findBattery
            (Battery.id (executeCharge_updated b amount freshId now)) bs
          = Some b) as Hb'
    by (cbn; now rewrite (findBattery_Some_id _ _ _ Hb)).
  rewrite (saveToStorage_found _ _ _ Hb').
  rewrite !(sumZ_replace _ _ _ _ Hnodup Hb'). cbn. lia.
Qed.

Lemma executeCharge_statistics_witness :
  statusReady (executeCharge "a" 10 "e9" "2024-04-01T08:00:00.000Z"
                 [akku_with_ledger; primary_two])
    = statusReady [akku_with_ledger; primary_two] + 3.
Proof.
  assert (NoDup (List.map Battery.id [akku_with_ledger; primary_two])) as H.
  { apply NoDup_ListNoDup. repeat constructor; cbn; intuition discriminate. }
  apply (executeCharge_statistics "a" 10 "e9" "2024-04-01T08:00:00.000Z"
           [akku_with_ledger; primary_two] akku_with_ledger H).
  reflexivity.
Defined.

(** ** The server *)

(** X18. The upsert endpoint rejects exactly the bodies without an id
    or without a name, and then leaves the table as it is; otherwise it
    answers with the id of the body, the row under that id has a
    non-empty name and size, and every other row is untouched. *)
Theorem post_batteries_outcome (body : Server.Body)
    (db : gmap string Server.Row) :
  match Server.post_batteries body db with
  | (Server.BadRequest, db') =>
      db' = db /\
      (JS.str_falsy (Server.id body) || JS.str_falsy (Server.name body))%bool
        = true
  | (Server.Success i, db') =>
      Server.id body = Some i /\ i <> "" /\
      JS.str_falsy (Server.name body) = false /\
      (exists row,
          db' !! i = Some row /\
          Server.r_name row <> "" /\ Server.r_size row <> "") /\
      (forall j, j <> i -> db' !! j = db !! j)
  end.
Proof.
  unfold Server.post_batteries.
  destruct (Server.id body) as [i|]; cbn [JS.str_falsy];
    [| destruct (Server.name body); split; reflexivity].
  destruct (Server.name body) as [n|]; cbn [JS.str_falsy];
    [| split; [reflexivity | apply orb_true_r]].
  destruct (String.eqb_spec i "") as [Hi | Hi]; cbn [orb];
    [split; reflexivity |].
  destruct (String.eqb_spec n "") as [Hn | Hn];
    [split; reflexivity |].
  split; [reflexivity |]. split; [exact Hi |]. split; [reflexivity |].
  split.
  - eexists. split; [apply lookup_insert_eq |].
    cbn. split; [exact Hn |].
    now apply str_or_nonempty.
  - intros j Hj. now apply lookup_insert_ne.
Qed.

Lemma post_batteries_outcome_witness :
  Server.id body_primary_two = Some "p" /\
  exists row,
    (Server.post_batteries body_primary_two ∅).2 !! "p" = Some row /\
    Server.r_name row <> "" /\ Server.r_size row <> "".
Proof.
  destruct (post_batteries_outcome body_primary_two ∅)
    as (Hid & _ & _ & Hrow & _).
  split; [exact Hid | exact Hrow].
Defined.

(** X19. [REPLACE] is delete-then-insert: posting a body that the
    server accepts gives the same answer and the same table whether or
    not the row under its id was deleted first.  And deleting right
    after posting such a body whose id was new gives back the table as
    it was. *)
Theorem delete_batteries_post (body : Server.Body) (i : string)
    (db : gmap string Server.Row) :
  (Server.post_batteries body db).1 = Server.Success i ->
  Server.post_batteries body (Server.delete_batteries i db)
    = Server.post_batteries body db /\
  (db !! i = None ->
   Server.delete_batteries i (Server.post_batteries body db).2 = db).
Proof.
  unfold Server.post_batteries, Server.delete_batteries.
  destruct (Server.id body) as [i'|]; [| discriminate].
  destruct (Server.name body) as [n|]; [| discriminate].
  destruct (String.eqb i' "" || String.eqb n "")%bool; [discriminate |].
  cbn [fst snd]. intros [= ->]. split.
  - now rewrite insert_delete_eq.
  - intros Hnew. rewrite delete_insert_eq. now apply delete_id.
Qed.

Lemma delete_batteries_post_witness :
  Server.delete_batteries "p" (Server.post_batteries body_primary_two ∅).2
    = ∅.
Proof.
  apply (delete_batteries_post body_primary_two "p" ∅);
    [reflexivity | apply lookup_empty].
Defined.

(** The row that the server stores for an entity sent by the client. *)
Lemma post_request_body (battery : Battery.t)
    (db : gmap string Server.Row) :
  Battery.id battery <> "" -> Battery.name battery <> "" ->
  Server.post_batteries (request_body battery) db =
    (Server.Success (Battery.id battery),
     <[Battery.id battery :=
         Server.row_of (request_body battery) (Battery.name battery)]> db).
Proof.
  intros Hid Hname. unfold Server.post_batteries.
  cbn [request_body Server.id Server.name].
  destruct (String.eqb_spec (Battery.id battery) ""); [contradiction |].
  destruct (String.eqb_spec (Battery.name battery) ""); [contradiction |].
  reflexivity.
Qed.

(** X20. What the server keeps of an entity of the client.  For an
    entity with a non-empty id and name, the request that
    [saveToStorage] sends is accepted, and the row stored under the id
    has the counters of the entity: quantity, totalQuantity,
    minQuantity, inUse, usageAccumulator, the cycle count (a missing
    one as 0), its ledger (a missing one as empty) and the text of its
    category. *)
Theorem post_batteries_keeps_counters (battery : Battery.t)
    (db : gmap string Server.Row) :
  Battery.id battery <> "" -> Battery.name battery <> "" ->
  exists row,
    Server.post_batteries (request_body battery) db
      = (Server.Success (Battery.id battery),
         <[Battery.id battery := row]> db) /\
    Server.r_name row = Battery.name battery /\
    Server.r_brand row = Battery.brand battery /\
    Server.r_category row = Some (category_value (Battery.category battery)) /\
    Server.r_quantity row = Battery.quantity battery /\
    Server.r_totalQuantity row = Battery.totalQuantity battery /\
    Server.r_minQuantity row = Battery.minQuantity battery /\
    Server.r_inUse row = Battery.inUse battery /\
    Server.r_usageAccumulator row = Battery.usageAccumulator battery /\
    Server.r_chargeCycles row = cycles battery /\
    Server.r_chargingHistory row = history_or_empty battery.
Proof.
  intros Hid Hname. eexists. split; [now apply post_request_body |].
  unfold Server.row_of, request_body.
  cbn [Server.r_name Server.r_brand Server.r_category Server.r_quantity
       Server.r_totalQuantity Server.r_minQuantity Server.r_inUse
       Server.r_usageAccumulator Server.r_chargeCycles
       Server.r_chargingHistory Server.brand Server.category
       Server.quantity Server.totalQuantity Server.minQuantity Server.inUse
       Server.usageAccumulator Server.chargeCycles Server.chargingHistory].
  rewrite !num_or_0, str_or_Some_empty.
  repeat split.
  unfold cycles. destruct (Battery.chargeCycles battery) as [c|];
    reflexivity.
Qed.

Lemma post_batteries_keeps_counters_witness :
  exists row,
    (Server.post_batteries (request_body akku_with_ledger) ∅).2 !! "a"
      = Some row /\
    Server.r_quantity row = 2 /\ Server.r_inUse row = 3 /\
    Server.r_chargeCycles row = 7 /\ Server.r_chargingHistory row = ledger.
Proof.
  destruct (post_batteries_keeps_counters akku_with_ledger ∅)
    as (row & Hpost & _ & _ & _ & Hq & _ & _ & Hi & _ & Hc & Hh);
    [discriminate | discriminate |].
  exists row. rewrite Hpost. cbn [snd].
  split; [apply lookup_insert_eq |].
  repeat split; assumption.
Defined.

(** X21. Every entity that [saveBattery] builds from a form with a name
    (with a non-empty generated id) is accepted by the server, under
    the id of the form when it has one. *)
Theorem saveBattery_accepted (form : Form.t) (freshId now : string)
    (db : gmap string Server.Row) :
  JS.str_falsy (Form.name form) = false ->
  freshId <> "" ->
  (Server.post_batteries
     (request_body (saveBattery_battery form freshId now)) db).1
  = Server.Success (JS.str_or (Form.id form) freshId).
Proof.
  intros Hname Hfresh.
  rewrite post_request_body; [reflexivity | |]; cbn.
  - now apply str_or_nonempty.
  - now apply str_or_present_nonempty.
Qed.

Lemma saveBattery_accepted_witness :
  (Server.post_batteries
     (request_body
        (saveBattery_battery form_akku_new "g1" "2024-01-01T00:00:00.000Z"))
     ∅).1
  = Server.Success "a".
Proof.
  apply (saveBattery_accepted form_akku_new "g1" "2024-01-01T00:00:00.000Z" ∅);
    [reflexivity | discriminate].
Defined.

(** ** More on the ledger and on writes *)

Lemma filter_twice {A : Type} (f : A -> bool) (l : list A) :
  List.filter f (List.filter f l) = List.filter f l.
Proof.
  induction l as [|x l IH]; [reflexivity |].
  cbn [List.filter]. destruct (f x) eqn:E; [| exact IH].
  cbn [List.filter]. now rewrite E, IH.
Qed.

(** X22. Deleting a history entry twice is deleting it once: the second
    deletion of the same event id leaves the inventory as the first one
    left it. *)
Theorem deleteHistoryEntry_twice (batteryId eventId : string)
    (bs : list Battery.t) :
  deleteHistoryEntry batteryId eventId
    (deleteHistoryEntry batteryId eventId bs)
  = deleteHistoryEntry batteryId eventId bs.
Proof.
  destruct (findBattery batteryId bs) as [b|] eqn:Hb.
  - destruct (Battery.chargingHistory b) as [h|] eqn:Hh.
    + pose proof (deleteHistoryEntry_stored _ eventId _ _ _ Hb Hh) as H1.
      unfold deleteHistoryEntry at 1. rewrite H1.
      cbn [deleteHistoryEntry_updated Battery.chargingHistory].
      unfold deleteHistoryEntry. rewrite Hb, Hh.
      replace (deleteHistoryEntry_updated
                 (deleteHistoryEntry_updated b h eventId)
                 (List.filter
                    (fun e => negb (String.eqb (ChargingEvent.id e) eventId))
                    h) eventId)
        with (deleteHistoryEntry_updated b h eventId)
        by (unfold deleteHistoryEntry_updated; cbn;
            now rewrite filter_twice).
      now apply saveToStorage_overwrite.
    + unfold deleteHistoryEntry. rewrite Hb, Hh. now rewrite Hb, Hh.
  - unfold deleteHistoryEntry. rewrite Hb. now rewrite Hb.
Qed.

(** X23. A write leaves no stale entry: after [saveToStorage], every
    entry of the list that carries the id of the entity written is that
    entity, also when the list held the id more than once. *)
Theorem saveToStorage_no_stale_entry (battery x : Battery.t)
    (prev : list Battery.t) :
  In x (saveToStorage battery prev) ->
  Battery.id x = Battery.id battery ->
  x = battery.
Proof.
  intros Hin Hid.
  destruct (findBattery (Battery.id battery) prev) as [b|] eqn:E.
  - rewrite (saveToStorage_found _ _ _ E) in Hin.
    apply List.in_map_iff in Hin as (y & <- & _).
    unfold replace_by_id in *.
    destruct (String.eqb_spec (Battery.id y) (Battery.id battery));
      [reflexivity | contradiction].
  - rewrite (saveToStorage_fresh _ _ E) in Hin.
    apply List.in_app_iff in Hin as [Hin | [<- | []]]; [| reflexivity].
    exfalso. unfold findBattery in E.
    apply (List.find_none _ _ E) in Hin.
    apply String.eqb_neq in Hin. contradiction.
Qed.

Lemma saveToStorage_no_stale_entry_witness :
  In akku_idle (saveToStorage akku_idle [akku_five; akku_all_in_use]) /\
  ~ In akku_five (saveToStorage akku_idle [akku_five; akku_all_in_use]).
Proof.
  split; [left; reflexivity |].
  intros Hin.
  pose proof (saveToStorage_no_stale_entry akku_idle akku_five
                [akku_five; akku_all_in_use] Hin eq_refl) as E.
  discriminate E.
Defined.

Lemma lowStock_sum (bs : list Battery.t) :
  Z.of_nat (lowStock bs) =
    sumZ (fun b => if Battery.quantity b <=? Battery.minQuantity b
                   then 1 else 0) bs.
Proof.
  unfold lowStock. induction bs as [|b bs IH]; [reflexivity |].
  rewrite sumZ_cons, <- IH. cbn [List.filter].
  destruct (Battery.quantity b <=? Battery.minQuantity b); cbn [length]; lia.
Qed.

(** X24. Consumption and the low-stock card.  In an inventory with
    unique ids, consuming a unit (of a type with a unit ready) never
    lowers the number of low-stock types shown; it raises it by one
    exactly when the type had one unit more than its minQuantity, and
    leaves it unchanged otherwise. *)
Theorem useBattery_lowStock (id : string) (bs : list Battery.t)
    (b : Battery.t) :
  NoDup (List.map Battery.id bs) ->
  findBattery id bs = Some b ->
  0 < Battery.quantity b ->
  lowStock (useBattery id bs) =
    if Battery.quantity b =? Battery.minQuantity b + 1
    then S (lowStock bs) else lowStock bs.
Proof.
  intros Hnodup Hb Hq.
  apply Nat2Z.inj.
  assert (Z.of_nat (if Battery.quantity b =? Battery.minQuantity b + 1
                    then S (lowStock bs) else lowStock bs)
          = Z.of_nat (lowStock bs)
            + (if Battery.quantity b =? Battery.minQuantity b + 1
               then 1 else 0)) as ->
    by (destruct (_ =? _); lia).
  rewrite (useBattery_step _ _ _ Hb Hq), !lowStock_sum.
  set (updated := if is_rechargeable (Battery.category b)
                  then useBattery_rechargeable b
                  else useBattery_consumable b).
  assert (Battery.id updated = id /\
          Battery.quantity updated = Battery.quantity b - 1 /\
          Battery.minQuantity updated = Battery.minQuantity b)
    as (Hid & Hquantity & Hmin).
  { subst updated. apply findBattery_Some_id in Hb.
    destruct (is_rechargeable (Battery.category b)); cbn; auto. }
  assert (findBattery (Battery.id updated) bs = Some b) as Hb'
    by now rewrite Hid.
  rewrite (saveToStorage_found _ _ _ Hb').
  rewrite (sumZ_replace _ _ _ _ Hnodup Hb'), Hquantity, Hmin.
  destruct (Z.eqb_spec (Battery.quantity b) (Battery.minQuantity b + 1));
    destruct (Z.leb_spec (Battery.quantity b) (Battery.minQuantity b));
    destruct (Z.leb_spec (Battery.quantity b - 1) (Battery.minQuantity b));
    lia.
Qed.

Lemma useBattery_lowStock_witness :
  lowStock [akku_with_ledger; primary_two] = 1%nat /\
  lowStock (useBattery "p" [akku_with_ledger; primary_two]) = 1%nat.
Proof.
  assert (NoDup (List.map Battery.id [akku_with_ledger; primary_two])) as H.
  { apply NoDup_ListNoDup. repeat constructor; cbn; intuition discriminate. }
  split; [reflexivity |].
  rewrite (useBattery_lowStock "p" [akku_with_ledger; primary_two]
             primary_two H); [reflexivity | reflexivity | simpl; lia].
Defined.
